(** * ng-mcp-chatbot: the OpenAI / MCP service ([src/app/openai.service.ts])

    A shallow embedding of [OpenAIService]: the SSE frame decoding of
    [callMCPMethod] and [initializeMCP], the completion call [sendMessage],
    the three-tier context composition of [sendMessageWithMCPContext] and
    the payload normalisation and rendering of [createContext].

    Conventions of the embedding.
    - Dynamically typed data ([any] in the source: MCP payloads, the tool
      list) is a [value]: the JSON values plus [undefined].  Numbers are
      integer valued; fractional numbers are outside the embedding.
    - Statically typed data ([OpenAIMessage], [OpenAIResponse]) is a record.
    - A thrown exception or an erroring observable is [Throw e]; every
      observable of the service emits at most one value, so an
      [Observable<T>] is a computation returning [Outcome T] and extending
      the log of HTTP requests issued so far.
    - The JavaScript runtime ([JSON.parse], string-to-number conversion) and
      the outside world (configuration, clock, HTTP peers) are fields of an
      environment [Env]; the theorems quantify over it. *)

From Stdlib Require Import String Ascii List ZArith Lia Bool QArith DecimalString.
Import ListNotations.
Local Open Scope list_scope.
Local Open Scope string_scope.

(** ** JavaScript values *)

Module JS.

#[local] Set Warnings "-register-all".

Inductive value : Type :=
| VUndefined
| VNull
| VBool (b : bool)
| VNum (n : Z)
| VStr (s : string)
| VArr (items : list value)
| VObj (fields : list (string * value)).

(** Own-property lookup in an object literal: the first binding wins. *)
Fixpoint lookup (k : string) (fields : list (string * value)) : option value :=
  match fields with
  | [] => None
  | (k', v) :: rest => if String.eqb k k' then Some v else lookup k rest
  end.

(** The value of member [k], [undefined] when there is none. *)
Definition member (k : string) (fields : list (string * value)) : value :=
  match lookup k fields with
  | Some x => x
  | None => VUndefined
  end.

(** ToBoolean. *)
Definition truthy (v : value) : bool :=
  match v with
  | VUndefined | VNull => false
  | VBool b => b
  | VNum n => negb (n =? 0)%Z
  | VStr s => negb (String.eqb s EmptyString)
  | VArr _ | VObj _ => true
  end.

Definition nullish (v : value) : bool :=
  match v with
  | VUndefined | VNull => true
  | _ => false
  end.

Definition isArray (v : value) : bool :=
  match v with
  | VArr _ => true
  | _ => false
  end.

(** [typeof v === 'object'] *)
Definition typeof_object (v : value) : bool :=
  match v with
  | VNull | VArr _ | VObj _ => true
  | _ => false
  end.

Definition string_of_Z (n : Z) : string :=
  NilZero.string_of_int (Z.to_int n).

(** ToString, as performed by a template literal [`${v}`].  An array is
    joined with commas, its [null] and [undefined] items rendered empty.
    The text is the one JavaScript produces on the [plain] values below:
    a number beyond the safe integers is printed from its nearest double
    (in exponent form from 10^21 on), and an object with an own [toString]
    member makes the conversion throw; both are outside [plain]. *)
Fixpoint to_string (v : value) : string :=
  match v with
  | VUndefined => "undefined"
  | VNull => "null"
  | VBool true => "true"
  | VBool false => "false"
  | VNum n => string_of_Z n
  | VStr s => s
  | VArr items =>
      String.concat ","
        (map (fun x => match x with
                       | VUndefined | VNull => EmptyString
                       | _ => to_string x
                       end) items)
  | VObj _ => "[object Object]"
  end.

(** The values whose string conversion [to_string] gives exactly: no
    number beyond the safe integers, no object with an own [toString]. *)
Fixpoint plain (v : value) : bool :=
  match v with
  | VUndefined | VNull | VBool _ | VStr _ => true
  | VNum n => (Z.abs n <? 2 ^ 53)%Z
  | VArr items => forallb plain items
  | VObj fields =>
      match lookup "toString" fields with
      | Some _ => false
      | None => true
      end
  end.

(** [Array.prototype.join(sep)] *)
Definition join (sep : string) (items : list value) : string :=
  String.concat sep (map (fun x => if nullish x then EmptyString else to_string x) items).

(** [a || b] *)
Definition or_else (a b : value) : value := if truthy a then a else b.

(** [s.substring(n)] *)
Fixpoint substring_from (n : nat) (s : string) : string :=
  match n, s with
  | O, _ => s
  | S n', String _ rest => substring_from n' rest
  | S _, EmptyString => EmptyString
  end.

(** [s.split('\n')] *)
Fixpoint split_lines (s : string) : list string :=
  match s with
  | EmptyString => [EmptyString]
  | String c rest =>
      if Ascii.eqb c "010"%char then EmptyString :: split_lines rest
      else match split_lines rest with
           | [] => [String c EmptyString]
           | l :: ls => String c l :: ls
           end
  end.

(** [s.startsWith(p)] *)
Definition startsWith (p s : string) : bool := String.prefix p s.

End JS.
Export JS.

(** ** Exceptions and outcomes *)

Inductive JsError : Type :=
| Error (message : string)
| TypeError
| SyntaxError
| HttpErrorResponse (status : Z) (statusText : string).

Inductive Outcome (A : Type) : Type :=
| Ok (a : A)
| Throw (e : JsError).
Arguments Ok {A} a.
Arguments Throw {A} e.

Definition obind {A B : Type} (o : Outcome A) (k : A -> Outcome B) : Outcome B :=
  match o with
  | Ok a => k a
  | Throw e => Throw e
  end.

Notation "'let?' x ':=' o 'in' k" := (obind o (fun x => k))
  (at level 10, x name, o at level 100, k at level 200).

(** Sequential [map] of an array with a callback that may throw. *)
Fixpoint map_outcome {A B : Type} (f : A -> Outcome B) (l : list A) : Outcome (list B) :=
  match l with
  | [] => Ok []
  | x :: rest =>
      let? y := f x in
      let? ys := map_outcome f rest in
      Ok (y :: ys)
  end.

(** Property read [v.k] for the property names the service uses (none of
    them an array index or a prototype member): reading from [null] or
    [undefined] throws, a primitive has only [length] (strings). *)
Definition get_prop (v : value) (k : string) : Outcome value :=
  match v with
  | VUndefined | VNull => Throw TypeError
  | VObj fields => Ok (member k fields)
  | VArr items => Ok (if String.eqb k "length" then VNum (Z.of_nat (List.length items)) else VUndefined)
  | VStr s => Ok (if String.eqb k "length" then VNum (Z.of_nat (String.length s)) else VUndefined)
  | VBool _ | VNum _ => Ok VUndefined
  end.

(** [a[0]] on an array. *)
Definition first_item (items : list value) : value :=
  match items with
  | [] => VUndefined
  | x :: _ => x
  end.

(** [v.map(f)]: only an array has a [map] method. *)
Definition array_map (v : value) (f : value -> Outcome value) : Outcome (list value) :=
  match v with
  | VArr items => map_outcome f items
  | _ => Throw TypeError
  end.

(** ** Typed data of the service *)

Inductive Role : Type := system | user | assistant.

Definition Role_eqb (a b : Role) : bool :=
  match a, b with
  | system, system | user, user | assistant, assistant => true
  | _, _ => false
  end.

Record OpenAIMessage : Type := mkMessage {
  role : Role;
  content : string
}.

Record Choice : Type := mkChoice {
  message_content : string;
  message_role : string
}.

Record OpenAIResponse : Type := mkResponse {
  choices : list Choice
}.

(** The JSON-RPC 2.0 envelope built by [callMCPMethod]. *)
Record JsonRpcRequest : Type := mkRpc {
  jsonrpc : string;
  id : Z;
  method : string;
  params : value
}.

(** The body built by [sendMessage]. *)
Record CompletionBody : Type := mkBody {
  model : string;
  messages : list OpenAIMessage;
  max_tokens : Z;
  temperature : Q
}.

Inductive Request : Type :=
| McpPost (url : string) (body : JsonRpcRequest)
| CompletionPost (url : string) (authorization : string) (body : CompletionBody).

(** ** The environment: runtime, configuration and HTTP peers *)

Record Env : Type := mkEnv {
  (** [JSON.parse]; [None] is a [SyntaxError]. *)
  JSON_parse : string -> option value;
  (** Whether the number a string converts to is greater than zero. *)
  StringToNumber_gt0 : string -> bool;
  (** [configService.getApiKey()] *)
  getApiKey : string;
  (** [Date.now()] *)
  Date_now : Z;
  (** The answer of the MCP proxy to a POST, read as text. *)
  mcp_post : JsonRpcRequest -> Outcome string;
  (** The answer of the completion endpoint to a POST with the given
      [Authorization] header and body, read as JSON. *)
  completion_post : string -> CompletionBody -> Outcome OpenAIResponse
}.

(** ** Observables

    An observable of the service is run once: it extends the log of
    requests and emits one value or errors. *)

Definition Log : Type := list Request.
Definition Obs (A : Type) : Type := Log -> Outcome A * Log.

(** [of(a)] *)
Definition rx_of {A : Type} (a : A) : Obs A := fun log => (Ok a, log).
Definition throwError {A : Type} (e : JsError) : Obs A := fun log => (Throw e, log).

(** [source.pipe(map(f))], with a projection that may throw. *)
Definition pipe_map {A B : Type} (source : Obs A) (f : A -> Outcome B) : Obs B :=
  fun log =>
    match source log with
    | (Ok a, log') => (f a, log')
    | (Throw e, log') => (Throw e, log')
    end.

(** [source.pipe(catchError(h))] *)
Definition catchError {A : Type} (source : Obs A) (h : JsError -> Obs A) : Obs A :=
  fun log =>
    match source log with
    | (Ok a, log') => (Ok a, log')
    | (Throw e, log') => h e log'
    end.

(** [source.pipe(switchMap(k))] for a source emitting at most once. *)
Definition switchMap {A B : Type} (source : Obs A) (k : A -> Obs B) : Obs B :=
  fun log =>
    match source log with
    | (Ok a, log') => k a log'
    | (Throw e, log') => (Throw e, log')
    end.

(** [x > 0] for an arbitrary value [x]. *)
Definition gt_zero (E : Env) (x : value) : bool :=
  match x with
  | VUndefined | VNull => false
  | VBool b => b
  | VNum n => (0 <? n)%Z
  | VStr s => StringToNumber_gt0 E s
  | VArr _ => StringToNumber_gt0 E (to_string x)
  | VObj _ => false
  end.

(** A synchronous computation run when the observable is subscribed. *)
Definition lift_outcome {A : Type} (o : Outcome A) : Obs A := fun log => (o, log).

(** The line feed and the double quote of the source's literals. *)
Definition nl : string := String "010"%char EmptyString.
Definition dquote : string := String "034"%char EmptyString.

(** [v && v.k] *)
Definition and_prop (v : value) (k : string) : Outcome value :=
  if truthy v then get_prop v k else Ok v.

(** ** The service *)

Section OpenAIService.

Variable E : Env.

Definition openaiApiUrl : string := "https://api.openai.com/v1/chat/completions".
Definition mcpProxyUrl : string := "/api/mcp".

(** [this.http.post<OpenAIResponse>(this.openaiApiUrl, body, { headers })];
    of the headers only [Authorization] varies and is recorded. *)
Definition http_post_completion (authorization : string) (body : CompletionBody)
  : Obs OpenAIResponse :=
  fun log => (completion_post E authorization body,
              (log ++ [CompletionPost openaiApiUrl authorization body])%list).

(** [this.http.post('/api/mcp', request, { headers, responseType: 'text' })] *)
Definition http_post_mcp (request : JsonRpcRequest) : Obs string :=
  fun log => (mcp_post E request, (log ++ [McpPost mcpProxyUrl request])%list).

Definition sendMessage (msgs : list OpenAIMessage) : Obs string :=
  let apiKey := getApiKey E in
  if String.eqb apiKey EmptyString then
    throwError (Error "OpenAI API key not set")
  else
    let body := {| model := "gpt-3.5-turbo";
                   messages := msgs;
                   max_tokens := 1000;
                   temperature := 7 # 10 |} in
    catchError
      (pipe_map (http_post_completion ("Bearer " ++ apiKey) body)
         (fun response =>
            match choices response with
            | c :: _ => Ok (message_content c)
            | [] => Throw (Error "No response from OpenAI")
            end))
      (fun error => throwError error).

(** The projection both [initializeMCP] and [callMCPMethod] apply to the
    raw response text; they differ in the label of the remote error. *)
Definition parse_sse (label : string) (response : string) : Outcome value :=
  let lines := split_lines response in
  match find (startsWith "data: ") lines with
  | Some dataLine =>
      if negb (String.eqb dataLine EmptyString) then
        let jsonData := substring_from 6 dataLine in
        match JSON_parse E jsonData with
        | None => Throw SyntaxError
        | Some parsedData =>
            let? err := get_prop parsedData "error" in
            if truthy err then
              let? msg := get_prop err "message" in
              Throw (Error (label ++ to_string msg))
            else get_prop parsedData "result"
        end
      else Throw (Error "Invalid SSE response format")
  | None => Throw (Error "Invalid SSE response format")
  end.

Definition initRequest : JsonRpcRequest :=
  {| jsonrpc := "2.0";
     id := 1;
     method := "initialize";
     params := VObj [("protocolVersion", VStr "2024-11-05");
                     ("capabilities", VObj []);
                     ("clientInfo", VObj [("name", VStr "angular-mcp-client");
                                          ("version", VStr "1.0.0")])] |}.

Definition initializeMCP : Obs value :=
  catchError
    (pipe_map (http_post_mcp initRequest) (parse_sse "MCP Initialization Error: "))
    (fun error => throwError error).

Definition callMCPMethod (method : string) (params : value) : Obs value :=
  let jsonRpcRequest := {| jsonrpc := "2.0";
                           id := Date_now E;
                           method := method;
                           params := or_else params (VObj []) |} in
  catchError
    (pipe_map (http_post_mcp jsonRpcRequest) (parse_sse "MCP Error: "))
    (fun error => throwError error).

Definition getMCPTools : Obs value := callMCPMethod "tools/list" VUndefined.

Definition callMCPTool (toolName : string) (params : value) : Obs value :=
  catchError
    (callMCPMethod "tools/call"
       (VObj [("name", VStr toolName); ("arguments", or_else params (VObj []))]))
    (fun error => throwError error).

Definition getMCPDiagnostic : Obs value := callMCPTool "diagnostic" VUndefined.
Definition getCompanies : Obs value := callMCPTool "getCompanies" VUndefined.
Definition getChats (companyName : string) : Obs value :=
  callMCPTool "getChats" (VObj [("companyName", VStr companyName)]).
Definition getLLMs (companyName : string) : Obs value :=
  callMCPTool "getLLMs" (VObj [("companyName", VStr companyName)]).

(** *** [createContext] *)

(** What the first half of [createContext] leaves behind: the array
    [companiesArray], or the text of its early [return] in the [catch]. *)
Inductive Normalized : Type :=
| Records (companiesArray : list value)
| EarlyReturn (text : string).

(** The statements of the [try] block after [JSON.parse] has returned.
    [x && Array.isArray(x)] holds exactly of the arrays. *)
Definition records_of_parsed (parsedData : value) : Outcome (list value) :=
  match parsedData with
  | VArr items => Ok items
  | _ =>
      let? nested := get_prop parsedData "companies" in
      match nested with
      | VArr items => Ok items
      | _ => Ok [parsedData]
      end
  end.

(** The [try { ... } catch (e) { return 'Error parsing company data.' }]. *)
Definition records_of_text (text : value) : Normalized :=
  match (match JSON_parse E (to_string text) with
         | None => Throw SyntaxError
         | Some parsedData => records_of_parsed parsedData
         end) with
  | Ok items => Records items
  | Throw _ => EarlyReturn "Error parsing company data."
  end.

Definition normalize (companies : value) : Outcome Normalized :=
  let? contentField := and_prop companies "content" in
  match contentField with
  | VArr contentItems =>
      let contentData := first_item contentItems in
      let? text := and_prop contentData "text" in
      if truthy text then Ok (records_of_text text)
      else match contentData with
           | VArr items => Ok (Records items)
           | _ => Ok (Records [contentData])
           end
  | _ =>
      match companies with
      | VArr items => Ok (Records items)
      | _ =>
          let? nested := and_prop companies "companies" in
          match nested with
          | VArr items => Ok (Records items)
          | _ =>
              if truthy companies && typeof_object companies
              then Ok (Records [companies])
              else Ok (Records [])
          end
      end
  end.

(** [company.chats?.map((chat) => chat.chatbot).join(', ') || 'None'] *)
Definition chats_text (company : value) : Outcome string :=
  let? chatsField := get_prop company "chats" in
  let? joined :=
    (if nullish chatsField then Ok VUndefined
     else let? names := array_map chatsField (fun chat => get_prop chat "chatbot") in
          Ok (VStr (join ", " names))) in
  Ok (to_string (or_else joined (VStr "None"))).

(** [company.llms?.map((llm) => `${llm.llm} (${llm.specialization})`).join(', ') || 'None'] *)
Definition llms_text (company : value) : Outcome string :=
  let? llmsField := get_prop company "llms" in
  let? joined :=
    (if nullish llmsField then Ok VUndefined
     else let? pairs := array_map llmsField
                          (fun llm =>
                             let? name := get_prop llm "llm" in
                             let? spec := get_prop llm "specialization" in
                             Ok (VStr (to_string name ++ " (" ++ to_string spec ++ ")"))) in
          Ok (VStr (join ", " pairs))) in
  Ok (to_string (or_else joined (VStr "None"))).

(** The callback of [companiesArray.map]: one block per company. *)
Definition render_company (company : value) : Outcome string :=
  let? chats := chats_text company in
  let? llms := llms_text company in
  let? name := get_prop company "company" in
  let? description := get_prop company "description" in
  Ok ("Company: " ++ to_string name ++ nl ++
      "Description: " ++ to_string description ++ nl ++
      "Chatbots: " ++ chats ++ nl ++
      "LLM Models: " ++ llms).

Definition createContext (companies : value) : Outcome string :=
  let? normalized := normalize companies in
  match normalized with
  | EarlyReturn text => Ok text
  | Records companiesArray =>
      if (List.length companiesArray =? 0)%nat then Ok "No company data available."
      else
        let? blocks := map_outcome render_company companiesArray in
        Ok (String.concat (nl ++ nl) blocks)
  end.

(** *** [sendMessageWithMCPContext] *)

Definition richPrompt (context : string) : string :=
  "You are an AI assistant that helps users find information about AI companies and their products." ++ nl ++
  nl ++
  "You have access to the following data about AI companies:" ++ nl ++
  context ++ nl ++
  nl ++
  "When users ask questions, use this data to provide accurate and helpful responses. If the question is about a specific company, you can also suggest using the MCP tools to get more detailed information about their chatbots or LLM models." ++ nl ++
  nl ++
  "Available MCP tools:" ++ nl ++
  "- getCompanies: Get all companies with their chats and LLMs" ++ nl ++
  "- getChats(companyName): Get chatbots for a specific company" ++ nl ++
  "- getLLMs(companyName): Get LLM models for a specific company" ++ nl ++
  nl ++
  "Be helpful, accurate, and suggest relevant companies or products based on the user's question.".

Definition toolsPrompt (toolsDescription : string) : string :=
  "You are an AI assistant with access to the following MCP (Model Context Protocol) tools:" ++ nl ++
  nl ++
  toolsDescription ++ nl ++
  nl ++
  "When a user asks about topics that could be answered using these tools, explain what information you could provide if you had access to call these tools. For example, if asked about " ++ dquote ++ "AI companies" ++ dquote ++ ", mention that you have access to tools that could provide that information.".

(** [messages.filter((m) => m.role !== 'system')] *)
Definition without_system (msgs : list OpenAIMessage) : list OpenAIMessage :=
  filter (fun m => negb (Role_eqb (role m) system)) msgs.

(** [mcpTools && mcpTools.tools && mcpTools.tools.length > 0] *)
Definition has_tools (mcpTools : value) : Outcome bool :=
  if truthy mcpTools then
    let? tools := get_prop mcpTools "tools" in
    if truthy tools then
      let? len := get_prop tools "length" in
      Ok (gt_zero E len)
    else Ok false
  else Ok false.

(** [`- ${tool.name}: ${tool.description || 'No description available'}`] *)
Definition tool_line (tool : value) : Outcome value :=
  let? name := get_prop tool "name" in
  let? description := get_prop tool "description" in
  Ok (VStr ("- " ++ to_string name ++ ": " ++
            to_string (or_else description (VStr "No description available")))).

(** [mcpTools.tools.map(...).join('\n')] *)
Definition toolsDescription (mcpTools : value) : Outcome string :=
  let? tools := get_prop mcpTools "tools" in
  let? lines := array_map tools tool_line in
  Ok (join nl lines).

(** The projection of the rich tier, applied to the [getCompanies] result. *)
Definition rich_messages (msgs : list OpenAIMessage) (companies : value)
  : Outcome (list OpenAIMessage) :=
  let? context := createContext companies in
  let systemMessage := {| role := system; content := richPrompt context |} in
  Ok (systemMessage :: without_system msgs).

(** The body of the [catchError] selector: the fallback tiers. *)
Definition fallback_messages (msgs : list OpenAIMessage) (mcpTools : value)
  : Outcome (list OpenAIMessage) :=
  let? nonEmpty := has_tools mcpTools in
  if nonEmpty then
    let? description := toolsDescription mcpTools in
    let systemMessage := {| role := system; content := toolsPrompt description |} in
    Ok (systemMessage :: without_system msgs)
  else Ok msgs.

(** The pipeline of [sendMessageWithMCPContext] up to its [switchMap]. *)
Definition enhancedMessages (msgs : list OpenAIMessage) (mcpTools : value)
  : Obs (list OpenAIMessage) :=
  catchError
    (pipe_map getCompanies (rich_messages msgs))
    (fun error => lift_outcome (fallback_messages msgs mcpTools)).

Definition sendMessageWithMCPContext (msgs : list OpenAIMessage) (mcpTools : value)
  : Obs string :=
  switchMap (enhancedMessages msgs mcpTools) sendMessage.

Definition processUserQuestion (question : string) : Obs string :=
  if String.eqb (getApiKey E) EmptyString then
    throwError (Error "OpenAI API key not configured. Please set your API key in the configuration.")
  else
    sendMessageWithMCPContext [{| role := user; content := question |}] VUndefined.

End OpenAIService.

(** ** A reference reader for the runtime's text conversions

    The theorems below hold for every [JSON_parse] and every
    [StringToNumber_gt0].  To run the service on concrete response texts the
    environment needs concrete ones: a reader of the JSON grammar (RFC 8259)
    restricted to integer numbers and to strings without [\u] escapes, and
    a reader of signed decimal integers. *)

Module JsonText.

Definition is_ws (c : ascii) : bool :=
  Ascii.eqb c " "%char || Ascii.eqb c "009"%char ||
  Ascii.eqb c "010"%char || Ascii.eqb c "013"%char.

Fixpoint skip_ws (s : string) : string :=
  match s with
  | String c rest => if is_ws c then skip_ws rest else s
  | EmptyString => s
  end.

Definition digit_of (c : ascii) : option Z :=
  let n := nat_of_ascii c in
  if ((48 <=? n) && (n <=? 57))%nat then Some (Z.of_nat (n - 48)) else None.

Fixpoint read_digits (s : string) (acc : Z) : Z * string :=
  match s with
  | String c rest =>
      match digit_of c with
      | Some d => read_digits rest (10 * acc + d)%Z
      | None => (acc, s)
      end
  | EmptyString => (acc, s)
  end.

(** An unsigned JSON integer: one digit at least, no leading zero. *)
Definition read_nat (s : string) : option (Z * string) :=
  match s with
  | String c rest =>
      match digit_of c with
      | Some 0%Z =>
          match rest with
          | String c' _ => match digit_of c' with
                           | Some _ => None
                           | None => Some (0%Z, rest)
                           end
          | EmptyString => Some (0%Z, rest)
          end
      | Some d => Some (read_digits rest d)
      | None => None
      end
  | EmptyString => None
  end.

Definition unescape (c : ascii) : option ascii :=
  if Ascii.eqb c "034"%char then Some "034"%char
  else if Ascii.eqb c "\"%char then Some "\"%char
  else if Ascii.eqb c "/"%char then Some "/"%char
  else if Ascii.eqb c "b"%char then Some "008"%char
  else if Ascii.eqb c "f"%char then Some "012"%char
  else if Ascii.eqb c "n"%char then Some "010"%char
  else if Ascii.eqb c "r"%char then Some "013"%char
  else if Ascii.eqb c "t"%char then Some "009"%char
  else None.

(** The characters of a string literal after its opening quote, up to and
    including the closing quote. *)
Fixpoint read_string (s : string) : option (string * string) :=
  match s with
  | EmptyString => None
  | String c rest =>
      if Ascii.eqb c "034"%char then Some (EmptyString, rest)
      else if Ascii.eqb c "\"%char then
        match rest with
        | String e rest' =>
            match unescape e, read_string rest' with
            | Some ch, Some (str, tail) => Some (String ch str, tail)
            | _, _ => None
            end
        | EmptyString => None
        end
      else if (nat_of_ascii c <? 32)%nat then None
      else match read_string rest with
           | Some (str, tail) => Some (String c str, tail)
           | None => None
           end
  end.

(** [strip p s] removes the prefix [p] of [s]. *)
Definition strip (p s : string) : option string :=
  if String.prefix p s then Some (substring_from (String.length p) s) else None.

(** In a parsed object the last of several members of one name wins. *)
Fixpoint obj_set (k : string) (v : value) (fields : list (string * value))
  : list (string * value) :=
  match fields with
  | [] => [(k, v)]
  | (k', v') :: rest =>
      if String.eqb k k' then (k, v) :: rest else (k', v') :: obj_set k v rest
  end.

Fixpoint read_value (fuel : nat) (s : string) : option (value * string) :=
  match fuel with
  | O => None
  | S fuel' =>
      let s := skip_ws s in
      match strip "null" s, strip "true" s, strip "false" s with
      | Some rest, _, _ => Some (VNull, rest)
      | _, Some rest, _ => Some (VBool true, rest)
      | _, _, Some rest => Some (VBool false, rest)
      | None, None, None =>
          match s with
          | EmptyString => None
          | String c rest =>
              if Ascii.eqb c "034"%char then
                match read_string rest with
                | Some (str, tail) => Some (VStr str, tail)
                | None => None
                end
              else if Ascii.eqb c "["%char then
                match strip "]" (skip_ws rest) with
                | Some tail => Some (VArr [], tail)
                | None => read_items fuel' rest []
                end
              else if Ascii.eqb c "{"%char then
                match strip "}" (skip_ws rest) with
                | Some tail => Some (VObj [], tail)
                | None => read_members fuel' rest []
                end
              else if Ascii.eqb c "-"%char then
                match read_nat rest with
                | Some (n, tail) => Some (VNum (- n), tail)
                | None => None
                end
              else
                match read_nat s with
                | Some (n, tail) => Some (VNum n, tail)
                | None => None
                end
          end
      end
  end
with read_items (fuel : nat) (s : string) (acc : list value) : option (value * string) :=
  match fuel with
  | O => None
  | S fuel' =>
      match read_value fuel' s with
      | Some (v, rest) =>
          let rest := skip_ws rest in
          match strip "," rest, strip "]" rest with
          | Some tail, _ => read_items fuel' tail (v :: acc)
          | None, Some tail => Some (VArr (rev (v :: acc)), tail)
          | None, None => None
          end
      | None => None
      end
  end
with read_members (fuel : nat) (s : string) (acc : list (string * value))
  : option (value * string) :=
  match fuel with
  | O => None
  | S fuel' =>
      match strip dquote (skip_ws s) with
      | Some afterQuote =>
          match read_string afterQuote with
          | Some (key, afterKey) =>
              match strip ":" (skip_ws afterKey) with
              | Some afterColon =>
                  match read_value fuel' afterColon with
                  | Some (v, rest) =>
                      let rest := skip_ws rest in
                      match strip "," rest, strip "}" rest with
                      | Some tail, _ => read_members fuel' tail (obj_set key v acc)
                      | None, Some tail => Some (VObj (obj_set key v acc), tail)
                      | None, None => None
                      end
                  | None => None
                  end
              | None => None
              end
          | None => None
          end
      | None => None
      end
  end.

(** A whole text: one value, surrounded by white space only. *)
Definition parse (text : string) : option value :=
  match read_value (2 * String.length text + 2) text with
  | Some (v, rest) =>
      match skip_ws rest with
      | EmptyString => Some v
      | String _ _ => None
      end
  | None => None
  end.

(** Whether a text is a signed decimal integer greater than zero, white
    space around it allowed. *)
Definition decimal_gt0 (text : string) : bool :=
  let s := skip_ws text in
  let unsigned := match strip "+" s with Some rest => rest | None => s end in
  match unsigned with
  | EmptyString => false
  | String c _ =>
      match digit_of c with
      | None => false
      | Some _ =>
          let (n, rest) := read_digits unsigned 0 in
          match skip_ws rest with
          | EmptyString => (0 <? n)%Z
          | String _ _ => false
          end
      end
  end.

(** ['] for the double quote, to write JSON texts legibly. *)
Fixpoint quoted (s : string) : string :=
  match s with
  | EmptyString => EmptyString
  | String c rest =>
      String (if Ascii.eqb c "'"%char then "034"%char else c) (quoted rest)
  end.

End JsonText.

(** The environment over the reference reader. *)
Definition reference_env (apiKey : string) (now : Z)
    (mcp : JsonRpcRequest -> Outcome string)
    (completion : string -> CompletionBody -> Outcome OpenAIResponse) : Env :=
  {| JSON_parse := JsonText.parse;
     StringToNumber_gt0 := JsonText.decimal_gt0;
     getApiKey := apiKey;
     Date_now := now;
     mcp_post := mcp;
     completion_post := completion |}.

(** ** Vocabulary of the statements *)

(** The envelope [callMCPMethod] posts. *)
Definition rpc_request (E : Env) (method : string) (params : value) : JsonRpcRequest :=
  {| jsonrpc := "2.0"; id := Date_now E; method := method;
     params := or_else params (VObj []) |}.

(** The envelope behind [getCompanies]. *)
Definition getCompanies_request (E : Env) : JsonRpcRequest :=
  rpc_request E "tools/call"
    (VObj [("name", VStr "getCompanies"); ("arguments", VObj [])]).

(** The body [sendMessage] posts for a conversation. *)
Definition completion_body (msgs : list OpenAIMessage) : CompletionBody :=
  {| model := "gpt-3.5-turbo"; messages := msgs;
     max_tokens := 1000; temperature := 7 # 10 |}.

Definition completion_request (E : Env) (msgs : list OpenAIMessage) : Request :=
  CompletionPost openaiApiUrl ("Bearer " ++ getApiKey E) (completion_body msgs).

(** The rich tier: the [getCompanies] call followed by its projection. *)
Definition rich_tier (E : Env) (msgs : list OpenAIMessage) : Obs (list OpenAIMessage) :=
  pipe_map (getCompanies E) (rich_messages E msgs).

Definition is_system (m : OpenAIMessage) : bool := Role_eqb (role m) system.

Definition count_system (msgs : list OpenAIMessage) : nat :=
  List.length (filter is_system msgs).

(** The first line of a response text that starts with ["data: "]. *)
Definition data_line (response : string) : option string :=
  find (startsWith "data: ") (split_lines response).

(** A tool descriptor as [tools/list] reports it, and its JSON value. *)
Record ToolDescriptor : Type := mkTool {
  tool_name : string;
  tool_description : option string
}.

Definition descriptor_value (d : ToolDescriptor) : value :=
  VObj (("name", VStr (tool_name d)) ::
        match tool_description d with
        | Some text => [("description", VStr text)]
        | None => []
        end).

(** The [mcpTools] argument for a caller that supplies a descriptor list,
    or none. *)
Definition mcpTools_of (supplied : option (list ToolDescriptor)) : value :=
  match supplied with
  | Some ds => VObj [("tools", VArr (map descriptor_value ds))]
  | None => VUndefined
  end.

(** *** The fallback tiers on an arbitrary [mcpTools] *)

(** [v.k] where the read cannot throw; [undefined] on [null]. *)
Definition field (v : value) (k : string) : value :=
  match get_prop v k with
  | Ok x => x
  | Throw _ => VUndefined
  end.

(** The line of a tool in the degraded prompt: its name, and its
    description or ["No description available"] when that is absent or
    otherwise falsy. *)
Definition tool_text (tool : value) : string :=
  "- " ++ to_string (field tool "name") ++ ": " ++
  (if truthy (field tool "description")
   then to_string (field tool "description")
   else "No description available").

(** An entry of the tool list the degraded tier can render: not [null] or
    [undefined], its name and description of plain string conversion. *)
Definition renderable_tool (tool : value) : Prop :=
  nullish tool = false /\
  plain (field tool "name") = true /\
  plain (field tool "description") = true.

(** A [length] that is not greater than zero: absent, [null], [false] or
    a number up to zero. *)
Definition not_positive (len : value) : bool :=
  match len with
  | VUndefined | VNull | VBool false => true
  | VNum n => (n <=? 0)%Z
  | _ => false
  end.

(** ** Concrete environments and inputs *)

Module Samples.

Definition reply_ok : OpenAIResponse :=
  {| choices := [{| message_content := "hi"; message_role := "assistant" |}] |}.

(** The MCP proxy is down; the completion endpoint answers. *)
Definition env_mcp_down : Env :=
  reference_env "sk-test" 1700000000000
    (fun _ => Throw (HttpErrorResponse 503 "Service Unavailable"))
    (fun _ _ => Ok reply_ok).

(** The MCP proxy answers every call with the given text. *)
Definition env_mcp_says (text : string) : Env :=
  reference_env "sk-test" 1700000000000 (fun _ => Ok text) (fun _ _ => Ok reply_ok).

(** No credential is configured. *)
Definition env_no_key : Env :=
  reference_env EmptyString 1700000000000 (fun _ => Ok EmptyString) (fun _ _ => Ok reply_ok).

(** The completion endpoint answers with no choice. *)
Definition env_no_choice : Env :=
  reference_env "sk-test" 1700000000000 (fun _ => Ok EmptyString)
    (fun _ _ => Ok {| choices := [] |}).

Definition frame (json : string) : string :=
  "event: message" ++ nl ++ "data: " ++ JsonText.quoted json.

Definition bare_frame : string := frame "{'jsonrpc':'2.0','id':1}".

Definition acme_text : string :=
  JsonText.quoted "[{'company':'Acme','description':'d','chats':[{'chatbot':'c1'}],'llms':[{'llm':'m1','specialization':'s1'}]}]".

Definition acme_record : value :=
  VObj [("company", VStr "Acme"); ("description", VStr "d");
        ("chats", VArr [VObj [("chatbot", VStr "c1")]]);
        ("llms", VArr [VObj [("llm", VStr "m1"); ("specialization", VStr "s1")]])].

Definition acme_payload : value :=
  VObj [("content", VArr [VObj [("text", VStr acme_text)]])].

Definition null_text_payload : value :=
  VObj [("content", VArr [VObj [("text", VStr "null")]])].

Definition empty_content_payload : value := VObj [("content", VArr [])].

Definition acme_block : string :=
  "Company: Acme" ++ nl ++ "Description: d" ++ nl ++
  "Chatbots: c1" ++ nl ++ "LLM Models: m1 (s1)".


Definition interleaved : list OpenAIMessage :=
  [{| role := user; content := "hello" |};
   {| role := system; content := "be brief" |};
   {| role := assistant; content := "hi" |};
   {| role := user; content := "which companies?" |}].

Definition some_tools : list ToolDescriptor :=
  [{| tool_name := "getCompanies"; tool_description := Some "List the companies" |};
   {| tool_name := "getChats"; tool_description := None |}].

End Samples.

(** ** Further vocabulary: frames and company records *)

(** Whether a text is free of line feeds. *)
Fixpoint no_line_feed (s : string) : bool :=
  match s with
  | EmptyString => true
  | String c rest => negb (Ascii.eqb c "010"%char) && no_line_feed rest
  end.

(** The frame the server sends for a JSON text. *)
Definition sse_frame (json : string) : string :=
  "event: message" ++ nl ++ "data: " ++ json.

(** A company as the [getCompanies] tool reports it, and its JSON value. *)
Record LlmEntry : Type := mkLlm {
  llm_name : string;
  llm_specialization : string
}.

Record CompanyRecord : Type := mkCompany {
  company_name : string;
  company_description : string;
  company_chats : list string;
  company_llms : list LlmEntry
}.

Definition chat_value (chatbot : string) : value :=
  VObj [("chatbot", VStr chatbot)].

Definition llm_value (l : LlmEntry) : value :=
  VObj [("llm", VStr (llm_name l)); ("specialization", VStr (llm_specialization l))].

Definition company_value (c : CompanyRecord) : value :=
  VObj [("company", VStr (company_name c));
        ("description", VStr (company_description c));
        ("chats", VArr (map chat_value (company_chats c)));
        ("llms", VArr (map llm_value (company_llms c)))].

(** [s || 'None'] on a string. *)
Definition none_if_empty (s : string) : string :=
  match s with
  | EmptyString => "None"
  | String _ _ => s
  end.

Definition llm_pair (l : LlmEntry) : string :=
  llm_name l ++ " (" ++ llm_specialization l ++ ")".

(** The block of a company in the context text. *)
Definition company_block (c : CompanyRecord) : string :=
  "Company: " ++ company_name c ++ nl ++
  "Description: " ++ company_description c ++ nl ++
  "Chatbots: " ++ none_if_empty (String.concat ", " (company_chats c)) ++ nl ++
  "LLM Models: " ++ none_if_empty (String.concat ", " (map llm_pair (company_llms c))).

(** ** [checkMCPHealth]

    One GET of [/api/mcp/health], read as JSON; the outcome of the request
    and the text of [new Date().toISOString()] are arguments. *)

Module Health.

Record MCPHealthResponse : Type := mkHealth {
  status : string;
  timestamp : string;
  data : value;
  serverType : string
}.

(** [v === 'ok'] *)
Definition is_ok (v : value) : bool :=
  match v with
  | VStr s => String.eqb s "ok"
  | _ => false
  end.

Definition checkMCPHealth (health_get : Outcome value) (now_iso : string)
  : Outcome MCPHealthResponse :=
  match (match health_get with
         | Ok response =>
             let? st := get_prop response "status" in
             Ok {| status := if is_ok st then "healthy" else "unhealthy";
                   timestamp := now_iso;
                   data := response;
                   serverType := "real" |}
         | Throw e => Throw e
         end) with
  | Ok health => Ok health
  | Throw error => Throw error
  end.

End Health.

(** ** The shape of exceptions *)

(** An outcome that, if it throws, throws a [TypeError]. *)
Definition only_TypeError {A : Type} (o : Outcome A) : Prop :=
  match o with
  | Ok _ => True
  | Throw e => e = TypeError
  end.

(** ** More concrete cases *)

Module Cases.

Definition result_frame : string :=
  sse_frame (JsonText.quoted "{'jsonrpc':'2.0','id':1,'result':{'tools':[{'name':'getCompanies'}]}}").

Definition error_frame : string :=
  sse_frame (JsonText.quoted "{'jsonrpc':'2.0','id':1,'error':{'code':-32601,'message':'Method not found'}}").

Definition broken_frame : string := "data: {oops".

Definition acme_frame : string :=
  sse_frame (JsonText.quoted "{'jsonrpc':'2.0','id':1,'result':{'content':[{'type':'text','text':'[{\'company\':\'Acme\',\'description\':\'d\',\'chats\':[{\'chatbot\':\'c1\'}],\'llms\':[{\'llm\':\'m1\',\'specialization\':\'s1\'}]}]'}]}}").

Definition garbled_frame : string :=
  sse_frame (JsonText.quoted "{'jsonrpc':'2.0','id':1,'result':{'content':[{'type':'text','text':'<html>'}]}}").

Definition garbled_payload : value :=
  VObj [("content", VArr [VObj [("type", VStr "text"); ("text", VStr "<html>")]])].

(** The completion endpoint rejects the credential. *)
Definition env_unauthorized : Env :=
  reference_env "sk-bad" 1700000000000
    (fun _ => Throw (HttpErrorResponse 503 "Service Unavailable"))
    (fun _ _ => Throw (HttpErrorResponse 401 "Unauthorized")).


Definition acme : CompanyRecord :=
  {| company_name := "Acme"; company_description := "d";
     company_chats := ["c1"; "c2"];
     company_llms := [{| llm_name := "m1"; llm_specialization := "s1" |}] |}.

Definition bare : CompanyRecord :=
  {| company_name := "Bare"; company_description := "none yet";
     company_chats := []; company_llms := [] |}.

Definition question : list OpenAIMessage :=
  [{| role := user; content := "which companies?" |}].

End Cases.

(** ** The configuration service ([config.service.ts])

    [ConfigService] keeps the configuration in memory and mirrors it in
    [localStorage] under one key.  The fields of the configuration are
    values: [loadConfig] stores whatever [JSON.parse] found under their
    names.  The platform (browser or server rendering, [JSON.parse],
    [JSON.stringify], whether [localStorage.setItem] throws) is a
    parameter. *)

Module ConfigService.

Record Platform : Type := mkPlatform {
  (** [isPlatformBrowser(this.platformId)] *)
  isPlatformBrowser : bool;
  (** [JSON.parse]; [None] is a [SyntaxError]. *)
  parse_text : string -> option value;
  (** [JSON.stringify] *)
  stringify : value -> string;
  (** Whether [localStorage.setItem] throws (quota, private mode). *)
  setItem_throws : bool;
  (** Whether [localStorage.removeItem] throws (storage access denied). *)
  removeItem_throws : bool
}.

Record AppConfig : Type := mkConfig {
  openaiApiKey : value;
  mcpServerUrl : value
}.

(** The service: its two signals and the item under ['chatbot-config']. *)
Record Service : Type := mkService {
  _config : AppConfig;
  isApiKeyConfigured : bool;
  stored : option string
}.

(** [Partial<AppConfig>]: each member is absent ([None]), present and
    [undefined] ([Some None]) or present with a string. *)
Record PartialConfig : Type := mkPartial {
  new_openaiApiKey : option (option string);
  new_mcpServerUrl : option (option string)
}.

(** The value of a member that is present. *)
Definition member_value (m : option string) : value :=
  match m with
  | Some text => VStr text
  | None => VUndefined
  end.

Definition DEFAULT_MCP_URL : string := "http://localhost:3100".

Definition default_config : AppConfig :=
  {| openaiApiKey := VStr EmptyString; mcpServerUrl := VStr DEFAULT_MCP_URL |}.

(** The object [JSON.stringify] is given. *)
Definition config_value (c : AppConfig) : value :=
  VObj [("openaiApiKey", openaiApiKey c); ("mcpServerUrl", mcpServerUrl c)].

Section Operations.

Variable P : Platform.

Definition resetToDefaults (s : Service) : Service :=
  {| _config := default_config; isApiKeyConfigured := false; stored := stored s |}.

Definition loadConfig (s : Service) : Service :=
  if negb (isPlatformBrowser P) then s
  else
    match stored s with
    | None => s
    | Some text =>
        if String.eqb text EmptyString then s
        else
          match (match parse_text P text with
                 | None => Throw SyntaxError
                 | Some config =>
                     let? key := get_prop config "openaiApiKey" in
                     let? url := get_prop config "mcpServerUrl" in
                     Ok {| _config :=
                             {| openaiApiKey := or_else key (VStr EmptyString);
                                mcpServerUrl := or_else url (VStr DEFAULT_MCP_URL) |};
                           isApiKeyConfigured := truthy key;
                           stored := stored s |}
                 end) with
          | Ok loaded => loaded
          | Throw _ => resetToDefaults s
          end
    end.

Definition saveConfig (s : Service) : Service :=
  if negb (isPlatformBrowser P) then s
  else if setItem_throws P then s
  else {| _config := _config s;
          isApiKeyConfigured := isApiKeyConfigured s;
          stored := Some (stringify P (config_value (_config s))) |}.

(** The constructor: the field initialisers, then [loadConfig]. *)
Definition create (item : option string) : Service :=
  loadConfig {| _config := default_config; isApiKeyConfigured := false; stored := item |}.

Definition setApiKey (apiKey : string) (s : Service) : Service :=
  saveConfig
    {| _config := {| openaiApiKey := VStr apiKey;
                     mcpServerUrl := mcpServerUrl (_config s) |};
       isApiKeyConfigured := truthy (VStr apiKey);
       stored := stored s |}.

Definition setMcpServerUrl (url : string) (s : Service) : Service :=
  saveConfig
    {| _config := {| openaiApiKey := openaiApiKey (_config s);
                     mcpServerUrl := or_else (VStr url) (VStr DEFAULT_MCP_URL) |};
       isApiKeyConfigured := isApiKeyConfigured s;
       stored := stored s |}.

Definition updateConfig (config : PartialConfig) (s : Service) : Service :=
  let newConfig :=
    {| openaiApiKey := match new_openaiApiKey config with
                       | Some key => member_value key
                       | None => openaiApiKey (_config s)
                       end;
       mcpServerUrl := match new_mcpServerUrl config with
                       | Some url => member_value url
                       | None => mcpServerUrl (_config s)
                       end |} in
  saveConfig
    {| _config := newConfig;
       isApiKeyConfigured := truthy (openaiApiKey newConfig);
       stored := stored s |}.

Definition getApiKey (s : Service) : value := openaiApiKey (_config s).

Definition getMcpServerUrl (s : Service) : value := mcpServerUrl (_config s).

Definition clearConfig (s : Service) : Service :=
  if negb (isPlatformBrowser P) then resetToDefaults s
  else if removeItem_throws P then s
  else resetToDefaults
         {| _config := _config s;
            isApiKeyConfigured := isApiKeyConfigured s;
            stored := None |}.

Definition isConfigValid (s : Service) : bool :=
  truthy (openaiApiKey (_config s)) && truthy (mcpServerUrl (_config s)).

Definition exportConfig (s : Service) : value :=
  VObj [("mcpServerUrl", mcpServerUrl (_config s))].

End Operations.

(** One public mutation of the service. *)
Inductive step (P : Platform) : Service -> Service -> Prop :=
| step_setApiKey (apiKey : string) (s : Service) :
    step P s (setApiKey P apiKey s)
| step_setMcpServerUrl (url : string) (s : Service) :
    step P s (setMcpServerUrl P url s)
| step_updateConfig (config : PartialConfig) (s : Service) :
    step P s (updateConfig P config s)
| step_clearConfig (s : Service) :
    step P s (clearConfig P s).

(** The states of a service from its construction on. *)
Inductive reachable (P : Platform) : Service -> Prop :=
| reachable_create (item : option string) :
    reachable P (create P item)
| reachable_step (s s' : Service) :
    reachable P s -> step P s s' -> reachable P s'.

(** What every state of the service satisfies. *)
Definition consistent (s : Service) : Prop :=
  isApiKeyConfigured s = truthy (openaiApiKey (_config s)).

End ConfigService.

(** A reference printer of JSON texts, for concrete runs: strings with
    the short escapes only, members holding [undefined] omitted. *)
Module JsonPrint.

Fixpoint escape (s : string) : string :=
  match s with
  | EmptyString => EmptyString
  | String c rest =>
      (if Ascii.eqb c "034"%char then "\" ++ dquote
       else if Ascii.eqb c "\"%char then "\\"
       else if Ascii.eqb c "010"%char then "\n"
       else if Ascii.eqb c "013"%char then "\r"
       else if Ascii.eqb c "009"%char then "\t"
       else String c EmptyString) ++ escape rest
  end.

Definition quote (s : string) : string := dquote ++ escape s ++ dquote.

Fixpoint print (v : value) : string :=
  match v with
  | VUndefined | VNull => "null"
  | VBool true => "true"
  | VBool false => "false"
  | VNum n => string_of_Z n
  | VStr s => quote s
  | VArr items => "[" ++ String.concat "," (map print items) ++ "]"
  | VObj fields =>
      "{" ++ String.concat ","
               ((fix members (l : list (string * value)) : list string :=
                   match l with
                   | [] => []
                   | (_, VUndefined) :: rest => members rest
                   | (k, x) :: rest => (quote k ++ ":" ++ print x) :: members rest
                   end) fields) ++ "}"
  end.

End JsonPrint.

Module ConfigCases.

(** A browser with working storage, over the reference reader and
    printer. *)
Definition browser : ConfigService.Platform :=
  {| ConfigService.isPlatformBrowser := true;
     ConfigService.parse_text := JsonText.parse;
     ConfigService.stringify := JsonPrint.print;
     ConfigService.setItem_throws := false;
     ConfigService.removeItem_throws := false |}.

(** Server-side rendering. *)
Definition server : ConfigService.Platform :=
  {| ConfigService.isPlatformBrowser := false;
     ConfigService.parse_text := JsonText.parse;
     ConfigService.stringify := JsonPrint.print;
     ConfigService.setItem_throws := false;
     ConfigService.removeItem_throws := false |}.

Definition configured : ConfigService.Service :=
  ConfigService.setApiKey browser "sk-test"
    (ConfigService.setMcpServerUrl browser "https://mcp.bmcom.ca"
       (ConfigService.create browser None)).

End ConfigCases.

(** ** The chat component ([app.ts])

    The part of [App] that drives the service: one user turn from
    [addAIResponse] on, the handshake of [checkMCPHealth] and
    [clearConversation].  A turn is run to its end: the callbacks of its
    subscriptions in the order the observables complete.  The signal
    [configService.isApiKeyConfigured()] and the URL shown in the texts are
    arguments; [new Date()] is the clock of the environment. *)

Module App.

(** [interface Message]; its [content] is [text] here. *)
Record Message : Type := mkChat {
  text : string;
  isUser : bool;
  timestamp : Z
}.

Record State : Type := mkState {
  messages : list Message;
  conversationHistory : list OpenAIMessage;
  mcpHealthStatus : string;
  shouldScrollToBottom : bool
}.

(** [error.status] and [error.statusText] of whatever was thrown. *)
Definition error_status (error : JsError) : value :=
  match error with
  | HttpErrorResponse status _ => VNum status
  | _ => VUndefined
  end.

Definition error_statusText (error : JsError) : value :=
  match error with
  | HttpErrorResponse _ statusText => VStr statusText
  | _ => VUndefined
  end.

(** [v === n] for a number literal [n]. *)
Definition is_number (v : value) (n : Z) : bool :=
  match v with
  | VNum m => (m =? n)%Z
  | _ => false
  end.

Section Component.

Variable E : Env.

(** [this.messages.update(ms => [...ms, {content, isUser: false, timestamp:
    new Date()}]); this.shouldScrollToBottom = true] *)
Definition reply (content : string) (st : State) : State :=
  {| messages := (messages st ++
                  [{| text := content; isUser := false; timestamp := Date_now E |}])%list;
     conversationHistory := conversationHistory st;
     mcpHealthStatus := mcpHealthStatus st;
     shouldScrollToBottom := true |}.

Definition set_status (status : string) (st : State) : State :=
  {| messages := messages st;
     conversationHistory := conversationHistory st;
     mcpHealthStatus := status;
     shouldScrollToBottom := shouldScrollToBottom st |}.

Definition push_history (m : OpenAIMessage) (st : State) : State :=
  {| messages := messages st;
     conversationHistory := (conversationHistory st ++ [m])%list;
     mcpHealthStatus := mcpHealthStatus st;
     shouldScrollToBottom := shouldScrollToBottom st |}.

Definition handleAIResponse (response : string) (st : State) : State :=
  reply response (push_history {| role := assistant; content := response |} st).

Definition handleAIError (error : JsError) (st : State) : State :=
  let errorMessage :=
    if is_number (error_status error) 401 then
      "Invalid API key. Please check your OpenAI API key configuration."
    else if is_number (error_status error) 429 then
      "Rate limit exceeded. Please try again in a moment."
    else "Sorry, I encountered an error while processing your request." in
  reply errorMessage st.

Definition subscribe_reply (run : Outcome string * Log) (st : State) : State * Log :=
  match run with
  | (Ok response, log') => (handleAIResponse response st, log')
  | (Throw error, log') => (handleAIError error st, log')
  end.

Definition proceedWithRegularAIResponse (st : State) (log : Log) : State * Log :=
  match getMCPTools E log with
  | (Ok mcpTools, log1) =>
      let st1 := set_status "Healthy" st in
      subscribe_reply
        (sendMessageWithMCPContext E (conversationHistory st1) mcpTools log1) st1
  | (Throw mcpError, log1) =>
      let st1 := set_status "Unavailable" st in
      subscribe_reply (sendMessage E (conversationHistory st1) log1) st1
  end.

(** What the subscription of a turn receives: the answer or the error of
    the completion, composed with the MCP context when the tool list
    could be fetched. *)
Definition turn_result (history : list OpenAIMessage) (log : Log) : Outcome string :=
  match getMCPTools E log with
  | (Ok mcpTools, log1) => fst (sendMessageWithMCPContext E history mcpTools log1)
  | (Throw mcpError, log1) => fst (sendMessage E history log1)
  end.

Definition addAIResponse (isApiKeyConfigured : bool) (userMessage : string)
    (st : State) (log : Log) : State * Log :=
  if negb isApiKeyConfigured then
    (reply "Please configure your OpenAI API key first by clicking the settings button." st,
     log)
  else
    proceedWithRegularAIResponse
      (push_history {| role := user; content := userMessage |} st) log.

Definition checkMCPHealth (mcpUrl : string) (st : State) (log : Log) : State * Log :=
  let st0 := set_status "Checking..." st in
  match initializeMCP E log with
  | (Ok response, log') =>
      (reply ("✅ MCP Server initialized successfully! Server at " ++ mcpUrl ++
              " is ready for use.")
         (set_status "Healthy" st0), log')
  | (Throw error, log') =>
      let errorMsg :=
        "❌ MCP Server initialization failed for " ++ mcpUrl ++ "." ++
        (if is_number (error_status error) 404 then
           " Please check the proxy configuration and ensure the MCP server is running."
         else if is_number (error_status error) 406 then
           " Server returned 406 Not Acceptable. Please check the MCP server configuration."
         else if is_number (error_status error) 0 then
           " This might be due to CORS issues or the server being unavailable."
         else " Error: " ++ to_string (error_status error) ++ " " ++
              to_string (error_statusText error)) in
      (reply errorMsg (set_status "Unavailable" st0), log')
  end.

Definition clearConversation (isApiKeyConfigured : bool) (st : State) : State :=
  {| messages :=
       [{| text := if isApiKeyConfigured
                   then "Conversation cleared. How can I help you today?"
                   else "Hello! I'm your AI assistant powered by OpenAI. Please configure your API key to start chatting. Click the settings button to get started!";
           isUser := false;
           timestamp := Date_now E |}];
     conversationHistory := [];
     mcpHealthStatus := mcpHealthStatus st;
     shouldScrollToBottom := true |}.

End Component.

(** The conversation of a state right after construction. *)
Definition fresh (welcome : list Message) : State :=
  {| messages := welcome;
     conversationHistory := [];
     mcpHealthStatus := "Unknown";
     shouldScrollToBottom := false |}.

End App.

(** The envelope behind [getMCPTools]. *)
Definition getMCPTools_request (E : Env) : JsonRpcRequest :=
  rpc_request E "tools/list" VUndefined.

(** A conversation whose only system message, if any, is its first
    message. *)
Definition system_only_first (msgs : list OpenAIMessage) : Prop :=
  count_system (tl msgs) = 0%nat.

(** A request that, if it is a completion request, carries such a
    conversation. *)
Definition well_formed_request (r : Request) : Prop :=
  match r with
  | CompletionPost _ _ body => system_only_first (messages body)
  | McpPost _ _ => True
  end.

Module AppCases.

Definition asked : App.State :=
  {| App.messages := [];
     App.conversationHistory :=
       [{| role := user; content := "hello" |};
        {| role := assistant; content := "hi" |}];
     App.mcpHealthStatus := "Unknown";
     App.shouldScrollToBottom := false |}.

End AppCases.

(** * Properties *)

(** ** The reference reader on the sample text *)

Example parse_acme :
  JsonText.parse Samples.acme_text = Some (VArr [Samples.acme_record]).
Proof. vm_compute. reflexivity. Qed.

(** ** Frame decoding *)

Lemma startsWith_data_nonempty (line : string) :
  startsWith "data: " line = true -> String.eqb line EmptyString = false.
Proof.
  destruct line as [| c rest]; simpl.
  - discriminate.
  - intros _. reflexivity.
Qed.

Lemma data_line_nonempty (response line : string) :
  data_line response = Some line -> String.eqb line EmptyString = false.
Proof.
  unfold data_line. intros Hfind.
  apply find_some in Hfind. destruct Hfind as [_ Hprefix].
  now apply startsWith_data_nonempty.
Qed.

(** [callMCPMethod] posts one envelope and decodes the text it gets. *)
Lemma callMCPMethod_run (E : Env) (method : string) (params : value) (log : Log) :
  callMCPMethod E method params log =
  (match mcp_post E (rpc_request E method params) with
   | Ok response => parse_sse E "MCP Error: " response
   | Throw e => Throw e
   end,
   (log ++ [McpPost mcpProxyUrl (rpc_request E method params)])%list).
Proof.
  unfold callMCPMethod, catchError, pipe_map, http_post_mcp, throwError.
  fold (rpc_request E method params).
  destruct (mcp_post E (rpc_request E method params)) as [response | e].
  - destruct (parse_sse E "MCP Error: " response); reflexivity.
  - reflexivity.
Qed.

(** [initializeMCP] decodes the same way, under its own error label. *)
Lemma initializeMCP_run (E : Env) (log : Log) :
  initializeMCP E log =
  (match mcp_post E initRequest with
   | Ok response => parse_sse E "MCP Initialization Error: " response
   | Throw e => Throw e
   end,
   (log ++ [McpPost mcpProxyUrl initRequest])%list).
Proof.
  unfold initializeMCP, catchError, pipe_map, http_post_mcp, throwError.
  destruct (mcp_post E initRequest) as [response | e]; [| reflexivity].
  destruct (parse_sse E "MCP Initialization Error: " response); reflexivity.
Qed.

(** With a data line whose text parses, the decoder goes on to the parsed
    value. *)
Lemma parse_sse_parsed (E : Env) (label response line : string) (parsed : value) :
  data_line response = Some line ->
  JSON_parse E (substring_from 6 line) = Some parsed ->
  parse_sse E label response =
  (let? err := get_prop parsed "error" in
   if truthy err then
     let? msg := get_prop err "message" in
     Throw (Error (label ++ to_string msg))
   else get_prop parsed "result").
Proof.
  intros Hline Hparse. unfold parse_sse.
  pose proof (data_line_nonempty _ _ Hline) as Hne.
  unfold data_line in Hline. rewrite Hline, Hne. simpl negb. cbv iota.
  rewrite Hparse. reflexivity.
Qed.


(** A truthy value can be read from. *)
Lemma truthy_get_prop (v : value) (k : string) :
  truthy v = true -> exists x, get_prop v k = Ok x.
Proof.
  destruct v; simpl; intros Ht; try discriminate; eexists; reflexivity.
Qed.

Lemma not_nullish_get_prop (v : value) (k : string) :
  nullish v = false -> exists x, get_prop v k = Ok x.
Proof.
  destruct v; simpl; intros Ht; try discriminate; eexists; reflexivity.
Qed.




(** C10.  When the first data line parses to a JSON object with neither an
    [error] nor a [result] member, [callMCPMethod] succeeds and emits
    [undefined]. *)
Theorem callMCPMethod_absent_result
    (E : Env) (method : string) (params : value) (log : Log)
    (response line : string) (fields : list (string * value)) :
  mcp_post E (rpc_request E method params) = Ok response ->
  data_line response = Some line ->
  JSON_parse E (substring_from 6 line) = Some (VObj fields) ->
  lookup "error" fields = None ->
  lookup "result" fields = None ->
  callMCPMethod E method params log
  = (Ok VUndefined, (log ++ [McpPost mcpProxyUrl (rpc_request E method params)])%list).
Proof.
  intros Hpost Hline Hparse Herror Hresult.
  rewrite callMCPMethod_run, Hpost.
  rewrite (parse_sse_parsed E _ _ _ _ Hline Hparse).
  cbn [get_prop obind]. unfold member. rewrite Herror, Hresult. reflexivity.
Qed.

Lemma callMCPMethod_absent_result_witness :
  mcp_post (Samples.env_mcp_says Samples.bare_frame)
    (rpc_request (Samples.env_mcp_says Samples.bare_frame) "tools/list" VUndefined)
  = Ok Samples.bare_frame /\
  callMCPMethod (Samples.env_mcp_says Samples.bare_frame) "tools/list" VUndefined []
  = (Ok VUndefined,
     [McpPost mcpProxyUrl
        (rpc_request (Samples.env_mcp_says Samples.bare_frame) "tools/list" VUndefined)]).
Proof.
  split; [reflexivity |].
  apply (callMCPMethod_absent_result (Samples.env_mcp_says Samples.bare_frame)
           "tools/list" VUndefined [] Samples.bare_frame
           (JsonText.quoted "data: {'jsonrpc':'2.0','id':1}")
           [("jsonrpc", VStr "2.0"); ("id", VNum 1)]);
    vm_compute; reflexivity.
Defined.

(** ** The completion call *)

Lemma sendMessage_no_key (E : Env) (msgs : list OpenAIMessage) (log : Log) :
  getApiKey E = EmptyString ->
  sendMessage E msgs log = (Throw (Error "OpenAI API key not set"), log).
Proof.
  intros Hkey. unfold sendMessage. rewrite Hkey. reflexivity.
Qed.

(** With a credential, [sendMessage] posts one request and reads the first
    choice of the answer. *)
Lemma sendMessage_with_key (E : Env) (msgs : list OpenAIMessage) (log : Log) :
  getApiKey E <> EmptyString ->
  sendMessage E msgs log =
  (match completion_post E ("Bearer " ++ getApiKey E) (completion_body msgs) with
   | Ok response =>
       match choices response with
       | c :: _ => Ok (message_content c)
       | [] => Throw (Error "No response from OpenAI")
       end
   | Throw e => Throw e
   end,
   (log ++ [completion_request E msgs])%list).
Proof.
  intros Hkey. unfold sendMessage.
  destruct (String.eqb_spec (getApiKey E) EmptyString) as [Heq | _];
    [contradiction |].
  unfold catchError, pipe_map, http_post_completion, throwError,
    completion_request, completion_body.
  destruct (completion_post E _ _) as [response | e]; [| reflexivity].
  destruct (choices response); reflexivity.
Qed.

(** C5.  Without a credential [sendMessage] fails with ["OpenAI API key not
    set"] and the request log is unchanged; with one, an answer whose
    [choices] is not empty yields the first choice's message content, and
    an answer whose [choices] is empty fails with ["No response from
    OpenAI"]. *)
Theorem sendMessage_outcomes (E : Env) (msgs : list OpenAIMessage) (log : Log) :
  (getApiKey E = EmptyString ->
   sendMessage E msgs log = (Throw (Error "OpenAI API key not set"), log)) /\
  (forall first rest,
      getApiKey E <> EmptyString ->
      completion_post E ("Bearer " ++ getApiKey E) (completion_body msgs)
      = Ok {| choices := first :: rest |} ->
      fst (sendMessage E msgs log) = Ok (message_content first)) /\
  (getApiKey E <> EmptyString ->
   completion_post E ("Bearer " ++ getApiKey E) (completion_body msgs)
   = Ok {| choices := [] |} ->
   fst (sendMessage E msgs log) = Throw (Error "No response from OpenAI")).
Proof.
  split; [| split].
  - apply sendMessage_no_key.
  - intros first rest Hkey Hanswer.
    rewrite (sendMessage_with_key E msgs log Hkey), Hanswer. reflexivity.
  - intros Hkey Hanswer.
    rewrite (sendMessage_with_key E msgs log Hkey), Hanswer. reflexivity.
Qed.

Example sendMessage_no_key_run :
  sendMessage Samples.env_no_key Samples.interleaved []
  = (Throw (Error "OpenAI API key not set"), []).
Proof. reflexivity. Qed.

Example sendMessage_hi_run :
  fst (sendMessage Samples.env_mcp_down Samples.interleaved []) = Ok "hi".
Proof. reflexivity. Qed.

Example sendMessage_no_choice_run :
  fst (sendMessage Samples.env_no_choice Samples.interleaved [])
  = Throw (Error "No response from OpenAI").
Proof. reflexivity. Qed.

(** C8.  The requests [sendMessage] adds to the log: none without a
    credential, otherwise exactly one POST to the completion URL whose body
    is [{model: 'gpt-3.5-turbo', messages, max_tokens: 1000, temperature:
    0.7}], with the conversation as given. *)
Theorem sendMessage_request_body (E : Env) (msgs : list OpenAIMessage) (log : Log) :
  snd (sendMessage E msgs log) =
  if String.eqb (getApiKey E) EmptyString then log
  else (log ++ [CompletionPost "https://api.openai.com/v1/chat/completions"
                  ("Bearer " ++ getApiKey E)
                  {| model := "gpt-3.5-turbo";
                     messages := msgs;
                     max_tokens := 1000;
                     temperature := 7 # 10 |}])%list.
Proof.
  destruct (String.eqb_spec (getApiKey E) EmptyString) as [Heq | Hne].
  - rewrite (sendMessage_no_key E msgs log Heq). reflexivity.
  - rewrite (sendMessage_with_key E msgs log Hne). reflexivity.
Qed.

(** ** [createContext] *)

(** A payload whose [content] is a list starting with an object that has
    a truthy [text]: the records are those of the text. *)
Lemma normalize_content_text (E : Env) (fields first : list (string * value))
    (rest : list value) (text : value) :
  lookup "content" fields = Some (VArr (VObj first :: rest)) ->
  lookup "text" first = Some text ->
  truthy text = true ->
  normalize E (VObj fields) = Ok (records_of_text E text).
Proof.
  intros Hcontent Htext Htruthy.
  unfold normalize, and_prop. cbn [truthy get_prop obind].
  unfold member. rewrite Hcontent. cbn [first_item truthy get_prop obind].
  unfold member. rewrite Htext. cbn [obind]. rewrite Htruthy. reflexivity.
Qed.

(** A payload whose [content] is a list starting with an element that has
    no truthy [text]: the element itself gives the records. *)
Lemma normalize_content_element (E : Env) (fields : list (string * value))
    (first : value) (rest : list value) (text : value) :
  lookup "content" fields = Some (VArr (first :: rest)) ->
  and_prop first "text" = Ok text ->
  truthy text = false ->
  normalize E (VObj fields)
  = Ok (Records match first with
                | VArr items => items
                | _ => [first]
                end).
Proof.
  intros Hcontent Htext Hfalsy.
  unfold normalize. unfold and_prop at 1. cbn [truthy get_prop obind].
  unfold member. rewrite Hcontent. cbn [first_item].
  rewrite Htext. cbn [obind]. rewrite Hfalsy.
  destruct first; reflexivity.
Qed.

(** A payload without a [content] list. *)
Lemma normalize_no_content (E : Env) (fields : list (string * value)) :
  isArray (member "content" fields) = false ->
  normalize E (VObj fields) =
  Ok (match member "companies" fields with
      | VArr items => Records items
      | _ => Records [VObj fields]
      end).
Proof.
  intros Hcontent.
  unfold normalize, and_prop. cbn [truthy get_prop obind].
  destruct (member "content" fields); try discriminate;
    destruct (member "companies" fields); reflexivity.
Qed.

(** C6.  Provided [JSON.parse] reads the sample text as the one-record
    list it denotes, [createContext] on the payload [{content: [{text}]}]
    normalises to exactly one record and renders exactly the block
    ["Company: Acme\nDescription: d\nChatbots: c1\nLLM Models: m1 (s1)"]. *)
Theorem createContext_acme (E : Env) :
  JSON_parse E Samples.acme_text = Some (VArr [Samples.acme_record]) ->
  normalize E Samples.acme_payload = Ok (Records [Samples.acme_record]) /\
  render_company Samples.acme_record = Ok Samples.acme_block /\
  createContext E Samples.acme_payload = Ok Samples.acme_block.
Proof.
  intros Hparse.
  assert (Hnorm : normalize E Samples.acme_payload = Ok (Records [Samples.acme_record])).
  { unfold Samples.acme_payload.
    rewrite (normalize_content_text E
               [("content", VArr [VObj [("text", VStr Samples.acme_text)]])]
               [("text", VStr Samples.acme_text)] []
               (VStr Samples.acme_text) eq_refl eq_refl)
      by (vm_compute; reflexivity).
    unfold records_of_text. cbn [to_string]. rewrite Hparse. reflexivity. }
  split; [exact Hnorm |]. split.
  - vm_compute. reflexivity.
  - unfold createContext. rewrite Hnorm. vm_compute. reflexivity.
Qed.

Lemma createContext_acme_witness :
  JSON_parse Samples.env_mcp_down Samples.acme_text = Some (VArr [Samples.acme_record]) /\
  createContext Samples.env_mcp_down Samples.acme_payload = Ok Samples.acme_block.
Proof.
  assert (Hparse : JSON_parse Samples.env_mcp_down Samples.acme_text
                   = Some (VArr [Samples.acme_record]))
    by (vm_compute; reflexivity).
  split; [exact Hparse |].
  exact (proj2 (proj2 (createContext_acme Samples.env_mcp_down Hparse))).
Defined.

(** C4 (as amended).  The ordered shape rule of [createContext]:
    - a payload whose [content] is a list starting with an object that has
      a truthy [text]: the text is parsed as JSON; a parse failure, or a
      text that parses to [null], yields ["Error parsing company data."];
      a parsed list is the record list; otherwise the parsed value's
      [companies] member is, if it is a list; otherwise the parsed value is
      wrapped as the only record;
    - a payload whose [content] is a list starting with an element that
      has no truthy [text]: that element is the record list if it is a
      list, and is wrapped as the only record otherwise;
    - a payload that is a list is the record list;
    - a payload object without a [content] list whose [companies] is a
      list: that list;
    - any other payload object without a [content] list: wrapped as the
      only record;
    - [null], [undefined] and the primitive payloads: no record;
    - and an empty record list renders as ["No company data available."]. *)
Theorem createContext_shape_rule (E : Env) :
  (forall fields first rest text,
      lookup "content" fields = Some (VArr (VObj first :: rest)) ->
      lookup "text" first = Some text ->
      truthy text = true ->
      match JSON_parse E (to_string text) with
      | None | Some VNull | Some VUndefined =>
          createContext E (VObj fields) = Ok "Error parsing company data."
      | Some (VArr items) =>
          normalize E (VObj fields) = Ok (Records items)
      | Some parsed =>
          normalize E (VObj fields)
          = Ok (Records match get_prop parsed "companies" with
                        | Ok (VArr items) => items
                        | _ => [parsed]
                        end)
      end) /\
  (forall fields first rest text,
      lookup "content" fields = Some (VArr (first :: rest)) ->
      and_prop first "text" = Ok text ->
      truthy text = false ->
      normalize E (VObj fields)
      = Ok (Records match first with
                    | VArr items => items
                    | _ => [first]
                    end)) /\
  (forall items, normalize E (VArr items) = Ok (Records items)) /\
  (forall fields items,
      isArray (member "content" fields) = false ->
      member "companies" fields = VArr items ->
      normalize E (VObj fields) = Ok (Records items)) /\
  (forall fields,
      isArray (member "content" fields) = false ->
      isArray (member "companies" fields) = false ->
      normalize E (VObj fields) = Ok (Records [VObj fields])) /\
  (forall payload,
      payload = VNull \/ typeof_object payload = false ->
      normalize E payload = Ok (Records [])) /\
  (forall payload,
      normalize E payload = Ok (Records []) ->
      createContext E payload = Ok "No company data available.").
Proof.
  refine (conj _ (conj _ (conj _ (conj _ (conj _ (conj _ _)))))).
  2: { intros fields first rest text. apply normalize_content_element. }
  - intros fields first rest text Hcontent Htext Htruthy.
    pose proof (normalize_content_text E fields first rest text
                  Hcontent Htext Htruthy) as Hnorm.
    unfold createContext. rewrite Hnorm. unfold records_of_text.
    destruct (JSON_parse E (to_string text)) as [parsed |]; [| reflexivity].
    destruct parsed as [| | b | n | s | items | pfields];
      cbn [records_of_parsed get_prop obind]; try reflexivity.
    destruct (member "companies" pfields); reflexivity.
  - intros items. reflexivity.
  - intros fields items Hcontent Hcompanies.
    rewrite (normalize_no_content E fields Hcontent), Hcompanies. reflexivity.
  - intros fields Hcontent Hcompanies.
    rewrite (normalize_no_content E fields Hcontent).
    destruct (member "companies" fields); try discriminate; reflexivity.
  - intros payload [-> | Hprim]; [reflexivity |].
    destruct payload as [| | b | n | s | items | fields]; try discriminate.
    + reflexivity.
    + destruct b; reflexivity.
    + unfold normalize, and_prop. destruct (truthy (VNum n)); reflexivity.
    + unfold normalize, and_prop. cbn [get_prop].
      destruct (truthy (VStr s)); reflexivity.
  - intros payload Hnorm. unfold createContext. rewrite Hnorm. reflexivity.
Qed.

Example normalize_image_content :
  normalize Samples.env_mcp_down
    (VObj [("content", VArr [VObj [("type", VStr "image"); ("data", VStr "AAAA")]])])
  = Ok (Records [VObj [("type", VStr "image"); ("data", VStr "AAAA")]]).
Proof. reflexivity. Qed.

(** C4 (counterexample).  The payload [{content: [{text: "null"}]}] has a
    [content] list whose first element carries a [text] that parses as
    JSON, to a value that is neither a list nor has a [companies] list; it
    is not wrapped as a single record: [createContext] answers with the
    text of a parse failure.  And the payload [{content: []}], a non-null
    object of no other recognised shape, is not wrapped either: its record
    list is [[undefined]], on which the rendering throws. *)
Lemma createContext_shape_counterexample :
  JsonText.parse "null" = Some VNull /\
  normalize Samples.env_mcp_down Samples.null_text_payload
  = Ok (EarlyReturn "Error parsing company data.") /\
  normalize Samples.env_mcp_down Samples.null_text_payload
  <> Ok (Records [VNull]) /\
  createContext Samples.env_mcp_down Samples.null_text_payload
  = Ok "Error parsing company data." /\
  normalize Samples.env_mcp_down Samples.empty_content_payload
  = Ok (Records [VUndefined]) /\
  createContext Samples.env_mcp_down Samples.empty_content_payload
  = Throw TypeError.
Proof.
  refine (conj _ (conj _ (conj _ (conj _ (conj _ _)))));
    try (vm_compute; reflexivity).
  vm_compute. discriminate.
Qed.


Example render_company_bare :
  render_company (VObj [("company", VStr "Acme"); ("description", VStr "d");
                        ("chats", VArr [])])
  = Ok ("Company: Acme" ++ nl ++ "Description: d" ++ nl ++
        "Chatbots: None" ++ nl ++ "LLM Models: None").
Proof. vm_compute. reflexivity. Qed.

(** ** The context composer *)

Lemma getCompanies_run (E : Env) (log : Log) :
  getCompanies E log =
  (match mcp_post E (getCompanies_request E) with
   | Ok response => parse_sse E "MCP Error: " response
   | Throw e => Throw e
   end,
   (log ++ [McpPost mcpProxyUrl (getCompanies_request E)])%list).
Proof.
  unfold getCompanies, callMCPTool, catchError at 1.
  rewrite callMCPMethod_run. unfold getCompanies_request, throwError.
  cbn [or_else truthy].
  destruct (mcp_post E _) as [response | e]; [| reflexivity].
  destruct (parse_sse E "MCP Error: " response); reflexivity.
Qed.

(** The three tiers. *)
Lemma enhancedMessages_cases (E : Env) (msgs : list OpenAIMessage)
    (mcpTools : value) (log : Log) :
  enhancedMessages E msgs mcpTools log =
  match rich_tier E msgs log with
  | (Ok out, log') => (Ok out, log')
  | (Throw _, log') => (fallback_messages E msgs mcpTools, log')
  end.
Proof.
  unfold enhancedMessages, catchError, rich_tier, lift_outcome.
  destruct (pipe_map (getCompanies E) (rich_messages E msgs) log) as [[out | e] log'];
    reflexivity.
Qed.

Lemma rich_tier_fails_with_getCompanies (E : Env) (msgs : list OpenAIMessage)
    (log log' : Log) (e : JsError) :
  getCompanies E log = (Throw e, log') ->
  rich_tier E msgs log = (Throw e, log').
Proof.
  intros Hcall. unfold rich_tier, pipe_map. rewrite Hcall. reflexivity.
Qed.

Lemma rich_tier_shape (E : Env) (msgs out : list OpenAIMessage) (log log' : Log) :
  rich_tier E msgs log = (Ok out, log') ->
  exists context,
    out = {| role := system; content := richPrompt context |} :: without_system msgs.
Proof.
  unfold rich_tier, pipe_map.
  destruct (getCompanies E log) as [[companies | e] log1]; [| discriminate].
  unfold rich_messages.
  destruct (createContext E companies) as [context | e]; cbn [obind];
    [| discriminate].
  intros Heq. injection Heq as <- _. exists context. reflexivity.
Qed.

Lemma has_tools_total (E : Env) (mcpTools : value) :
  exists b, has_tools E mcpTools = Ok b.
Proof.
  unfold has_tools.
  destruct (truthy mcpTools) eqn:Htruthy; [| eexists; reflexivity].
  destruct (truthy_get_prop mcpTools "tools" Htruthy) as [tools ->].
  cbn [obind].
  destruct (truthy tools) eqn:Htools; [| eexists; reflexivity].
  destruct (truthy_get_prop tools "length" Htools) as [len ->].
  eexists; reflexivity.
Qed.

(** The fallback yields the degraded conversation, the untouched input, or
    the exception of rendering the tool list. *)
Lemma fallback_messages_cases (E : Env) (msgs : list OpenAIMessage) (mcpTools : value) :
  (has_tools E mcpTools = Ok true /\
   fallback_messages E msgs mcpTools =
   match toolsDescription mcpTools with
   | Ok description =>
       Ok ({| role := system; content := toolsPrompt description |}
           :: without_system msgs)
   | Throw e => Throw e
   end) \/
  (has_tools E mcpTools = Ok false /\ fallback_messages E msgs mcpTools = Ok msgs).
Proof.
  unfold fallback_messages.
  destruct (has_tools_total E mcpTools) as [[|] Hhas]; rewrite Hhas; cbn [obind].
  - left. split; [reflexivity |].
    destruct (toolsDescription mcpTools); reflexivity.
  - right. split; reflexivity.
Qed.





Lemma without_system_no_system (msgs : list OpenAIMessage) :
  count_system msgs = 0%nat -> without_system msgs = msgs.
Proof.
  unfold count_system, without_system.
  induction msgs as [| m rest IH]; [reflexivity |].
  cbn [filter]. unfold is_system at 1.
  destruct (Role_eqb (role m) system); cbn [negb List.length].
  - discriminate.
  - intros Hcount. rewrite (IH Hcount). reflexivity.
Qed.

(** What the composer emits, tier by tier. *)
Lemma enhancedMessages_shape (E : Env) (msgs : list OpenAIMessage)
    (mcpTools : value) (log : Log) :
  match enhancedMessages E msgs mcpTools log with
  | (Ok out, _) =>
      (exists prompt,
          out = {| role := system; content := prompt |} :: without_system msgs) \/
      (out = msgs /\ has_tools E mcpTools = Ok false)
  | (Throw e, _) =>
      has_tools E mcpTools = Ok true /\ toolsDescription mcpTools = Throw e
  end.
Proof.
  rewrite enhancedMessages_cases.
  destruct (rich_tier E msgs log) as [[out | e] log'] eqn:Hrich.
  - left. destruct (rich_tier_shape E msgs out log log' Hrich) as [context ->].
    eexists; reflexivity.
  - destruct (fallback_messages_cases E msgs mcpTools) as [[Hhas ->] | [Hhas ->]].
    + destruct (toolsDescription mcpTools) as [description | e'].
      * left. eexists; reflexivity.
      * split; [exact Hhas | reflexivity].
    + right. split; [reflexivity | exact Hhas].
Qed.

Lemma sendMessageWithMCPContext_run (E : Env) (msgs : list OpenAIMessage)
    (mcpTools : value) (log : Log) :
  sendMessageWithMCPContext E msgs mcpTools log =
  match enhancedMessages E msgs mcpTools log with
  | (Ok out, log') => sendMessage E out log'
  | (Throw e, log') => (Throw e, log')
  end.
Proof. reflexivity. Qed.





Lemma join_strings {A : Type} (sep : string) (f : A -> string) (l : list A) :
  join sep (map (fun x => VStr (f x)) l) = String.concat sep (map f l).
Proof.
  unfold join. rewrite map_map. reflexivity.
Qed.

(** *** The fallback tiers on an arbitrary tool list *)

Lemma tool_line_text (tool : value) :
  nullish tool = false -> tool_line tool = Ok (VStr (tool_text tool)).
Proof.
  intros Hnn.
  destruct (not_nullish_get_prop tool "name" Hnn) as [name Hname].
  destruct (not_nullish_get_prop tool "description" Hnn) as [description Hdescr].
  unfold tool_line, tool_text, field. rewrite Hname, Hdescr. cbn [obind].
  unfold or_else. destruct (truthy description); reflexivity.
Qed.

Lemma map_outcome_tool_text (tools : list value) :
  Forall renderable_tool tools ->
  map_outcome tool_line tools = Ok (map (fun tool => VStr (tool_text tool)) tools).
Proof.
  induction 1 as [| tool rest [Hnn _] _ IH]; [reflexivity |].
  cbn [map map_outcome]. rewrite (tool_line_text tool Hnn), IH. reflexivity.
Qed.

Lemma get_prop_array_object (v : value) (k : string) (items : list value) :
  get_prop v k = Ok (VArr items) -> exists fields, v = VObj fields.
Proof.
  destruct v as [| | b | n | s | l | fields]; cbn [get_prop]; try discriminate.
  - destruct (String.eqb k "length"); discriminate.
  - destruct (String.eqb k "length"); discriminate.
  - intros _. eexists; reflexivity.
Qed.

Lemma has_tools_list (E : Env) (mcpTools : value) (tools : list value) :
  get_prop mcpTools "tools" = Ok (VArr tools) ->
  tools <> [] ->
  has_tools E mcpTools = Ok true.
Proof.
  intros Htools Hne.
  destruct (get_prop_array_object _ _ _ Htools) as [fields ->].
  unfold has_tools. cbn [truthy]. rewrite Htools. cbn [obind truthy get_prop].
  change (String.eqb "length" "length") with true. cbn [gt_zero].
  destruct tools as [| tool rest]; [contradiction |]. reflexivity.
Qed.

Lemma not_positive_gt_zero (E : Env) (len : value) :
  not_positive len = true -> gt_zero E len = false.
Proof.
  destruct len as [| | [|] | n | s | l | fields]; cbn [not_positive gt_zero];
    try discriminate; try reflexivity.
  intros Hle. apply Z.leb_le in Hle. apply Z.ltb_ge. exact Hle.
Qed.

Lemma has_tools_none (E : Env) (mcpTools : value) :
  truthy mcpTools = false \/
  (exists tools,
      get_prop mcpTools "tools" = Ok tools /\
      (truthy tools = false \/
       exists len, get_prop tools "length" = Ok len /\ not_positive len = true)) ->
  has_tools E mcpTools = Ok false.
Proof.
  unfold has_tools. intros [Hfalsy | [tools [Htools Hempty]]].
  - rewrite Hfalsy. reflexivity.
  - destruct (truthy mcpTools); [| reflexivity].
    rewrite Htools. cbn [obind].
    destruct Hempty as [Hfalsy | [len [Hlen Hnp]]].
    + rewrite Hfalsy. reflexivity.
    + destruct (truthy tools); [| reflexivity].
      rewrite Hlen. cbn [obind].
      rewrite (not_positive_gt_zero E len Hnp). reflexivity.
Qed.

(** Once the composer has a conversation, it goes to [sendMessage]. *)
Lemma composed_then_sent (E : Env) (msgs out : list OpenAIMessage)
    (mcpTools : value) (log log' : Log) :
  enhancedMessages E msgs mcpTools log = (Ok out, log') ->
  sendMessageWithMCPContext E msgs mcpTools log = sendMessage E out log' /\
  (getApiKey E <> EmptyString ->
   snd (sendMessageWithMCPContext E msgs mcpTools log)
   = (log' ++ [completion_request E out])%list).
Proof.
  intros Henh.
  assert (Hsend : sendMessageWithMCPContext E msgs mcpTools log
                  = sendMessage E out log')
    by (rewrite sendMessageWithMCPContext_run, Henh; reflexivity).
  split; [exact Hsend |].
  intros Hkey. rewrite Hsend, (sendMessage_with_key E out log' Hkey). reflexivity.
Qed.

(** C3 (as amended).  When the [getCompanies] call fails,
    [sendMessageWithMCPContext] falls back without surfacing that error.
    If [mcpTools.tools] is a non-empty list none of whose entries is
    [null] or [undefined], the conversation is a system message made of
    the fixed introduction, one line ["- name: description"] per tool
    (["No description available"] for an absent or otherwise falsy
    description) and the fixed instruction, followed by the input's
    non-system messages.  If [mcpTools] is absent or falsy, or its [tools]
    member is falsy or has no positive [length] (an empty list), the
    conversation is the input.  In both cases the conversation goes to
    [sendMessage], which, given a credential, posts it to the completion
    endpoint. *)
Theorem sendMessageWithMCPContext_fallback (E : Env) (msgs : list OpenAIMessage)
    (mcpTools : value) (log log' : Log) (e : JsError) :
  getCompanies E log = (Throw e, log') ->
  (forall tools,
      get_prop mcpTools "tools" = Ok (VArr tools) ->
      tools <> [] ->
      Forall renderable_tool tools ->
      let conversation :=
        {| role := system;
           content :=
             "You are an AI assistant with access to the following MCP (Model Context Protocol) tools:" ++ nl ++
             nl ++
             String.concat nl (map tool_text tools) ++ nl ++
             nl ++
             "When a user asks about topics that could be answered using these tools, explain what information you could provide if you had access to call these tools. For example, if asked about " ++ dquote ++ "AI companies" ++ dquote ++ ", mention that you have access to tools that could provide that information." |}
        :: without_system msgs in
      enhancedMessages E msgs mcpTools log = (Ok conversation, log') /\
      sendMessageWithMCPContext E msgs mcpTools log
      = sendMessage E conversation log' /\
      (getApiKey E <> EmptyString ->
       snd (sendMessageWithMCPContext E msgs mcpTools log)
       = (log' ++ [completion_request E conversation])%list)) /\
  (truthy mcpTools = false \/
   (exists tools,
       get_prop mcpTools "tools" = Ok tools /\
       (truthy tools = false \/
        exists len, get_prop tools "length" = Ok len /\ not_positive len = true)) ->
   enhancedMessages E msgs mcpTools log = (Ok msgs, log') /\
   sendMessageWithMCPContext E msgs mcpTools log = sendMessage E msgs log' /\
   (getApiKey E <> EmptyString ->
    snd (sendMessageWithMCPContext E msgs mcpTools log)
    = (log' ++ [completion_request E msgs])%list)).
Proof.
  intros Hcall.
  pose proof (rich_tier_fails_with_getCompanies E msgs log log' e Hcall) as Hrich.
  split.
  - intros tools Htools Hne Hrender conversation.
    assert (Henh : enhancedMessages E msgs mcpTools log = (Ok conversation, log')).
    { rewrite enhancedMessages_cases, Hrich. unfold fallback_messages.
      rewrite (has_tools_list E mcpTools tools Htools Hne). cbn [obind].
      unfold toolsDescription. rewrite Htools. cbn [obind array_map].
      rewrite (map_outcome_tool_text tools Hrender). cbn [obind].
      rewrite (join_strings nl tool_text). reflexivity. }
    split; [exact Henh |].
    exact (composed_then_sent E msgs conversation mcpTools log log' Henh).
  - intros Hnone.
    assert (Henh : enhancedMessages E msgs mcpTools log = (Ok msgs, log')).
    { rewrite enhancedMessages_cases, Hrich. unfold fallback_messages.
      rewrite (has_tools_none E mcpTools Hnone). reflexivity. }
    split; [exact Henh |].
    exact (composed_then_sent E msgs msgs mcpTools log log' Henh).
Qed.

Lemma sendMessageWithMCPContext_fallback_witness :
  getCompanies Samples.env_mcp_down []
  = (Throw (HttpErrorResponse 503 "Service Unavailable"),
     [McpPost mcpProxyUrl (getCompanies_request Samples.env_mcp_down)]) /\
  enhancedMessages Samples.env_mcp_down Samples.interleaved
    (mcpTools_of (Some Samples.some_tools)) []
  = (Ok ({| role := system;
            content := toolsPrompt ("- getCompanies: List the companies" ++ nl ++
                                    "- getChats: No description available") |}
         :: without_system Samples.interleaved),
     [McpPost mcpProxyUrl (getCompanies_request Samples.env_mcp_down)]).
Proof.
  assert (Hcall : getCompanies Samples.env_mcp_down []
                  = (Throw (HttpErrorResponse 503 "Service Unavailable"),
                     [McpPost mcpProxyUrl (getCompanies_request Samples.env_mcp_down)]))
    by reflexivity.
  split; [exact Hcall |].
  destruct (sendMessageWithMCPContext_fallback Samples.env_mcp_down
              Samples.interleaved (mcpTools_of (Some Samples.some_tools)) [] _ _ Hcall)
    as [Hdegraded _].
  refine (proj1 (Hdegraded (map descriptor_value Samples.some_tools) eq_refl _ _)).
  - discriminate.
  - repeat constructor.
Defined.

(** C3 (counterexample).  With the MCP proxy down, so that [getCompanies]
    fails, and a supplied tool list that is not empty but holds [null],
    the fallback itself throws: [sendMessageWithMCPContext] fails with a
    [TypeError] and no completion request is made. *)
Lemma sendMessageWithMCPContext_null_tool_counterexample :
  getCompanies Samples.env_mcp_down []
  = (Throw (HttpErrorResponse 503 "Service Unavailable"),
     [McpPost mcpProxyUrl (getCompanies_request Samples.env_mcp_down)]) /\
  sendMessageWithMCPContext Samples.env_mcp_down Samples.interleaved
    (VObj [("tools", VArr [VNull])]) []
  = (Throw TypeError,
     [McpPost mcpProxyUrl (getCompanies_request Samples.env_mcp_down)]).
Proof. split; vm_compute; reflexivity. Qed.

(** * Further properties of the service *)

(** ** Lines and frames *)

Lemma split_lines_nonempty (s : string) : split_lines s <> [].
Proof.
  induction s as [| c rest IH]; cbn [split_lines]; [discriminate |].
  destruct (Ascii.eqb c "010"%char); [discriminate |].
  destruct (split_lines rest); discriminate.
Qed.

Lemma split_lines_no_line_feed (s : string) :
  no_line_feed s = true -> split_lines s = [s].
Proof.
  induction s as [| c rest IH]; cbn [split_lines no_line_feed]; [reflexivity |].
  destruct (Ascii.eqb c "010"%char); cbn [negb andb]; [discriminate |].
  intros Hrest. rewrite (IH Hrest). reflexivity.
Qed.

Lemma split_lines_app (a b : string) :
  split_lines (a ++ nl ++ b) = (split_lines a ++ split_lines b)%list.
Proof.
  induction a as [| c rest IH].
  - reflexivity.
  - change ((String c rest ++ nl ++ b)) with (String c (rest ++ nl ++ b)).
    cbn [split_lines]. destruct (Ascii.eqb c "010"%char).
    + rewrite IH. reflexivity.
    + rewrite IH. pose proof (split_lines_nonempty rest) as Hne.
      destruct (split_lines rest) as [| l ls]; [contradiction | reflexivity].
Qed.

Lemma find_app_some {A : Type} (f : A -> bool) (l1 l2 : list A) (x : A) :
  find f l1 = Some x -> find f (l1 ++ l2)%list = Some x.
Proof.
  induction l1 as [| y rest IH]; cbn [find app]; [discriminate |].
  destruct (f y); [trivial | exact IH].
Qed.

Lemma data_line_sse_frame (json : string) :
  no_line_feed json = true ->
  data_line (sse_frame json) = Some ("data: " ++ json).
Proof.
  intros Hjson. unfold data_line, sse_frame.
  rewrite split_lines_app.
  assert (Hdata : no_line_feed ("data: " ++ json) = true) by exact Hjson.
  rewrite (split_lines_no_line_feed _ Hdata).
  assert (Hstarts : startsWith "data: " ("data: " ++ json) = true)
    by (unfold startsWith; cbn; destruct json; reflexivity).
  change (split_lines "event: message") with ["event: message"].
  cbn [app find]. change (startsWith "data: " "event: message") with false.
  cbn iota. rewrite Hstarts. reflexivity.
Qed.

(** X1.  Framing round trip: when the proxy answers with
    ["event: message\ndata: " ++ json] for a JSON text without line feed
    that [JSON.parse] reads as an object whose [error] member is absent or
    falsy, [callMCPMethod] emits exactly the object's [result] member and
    has posted one envelope. *)
Theorem callMCPMethod_frame_roundtrip
    (E : Env) (method : string) (params : value) (log : Log)
    (json : string) (fields : list (string * value)) :
  no_line_feed json = true ->
  mcp_post E (rpc_request E method params) = Ok (sse_frame json) ->
  JSON_parse E json = Some (VObj fields) ->
  truthy (member "error" fields) = false ->
  callMCPMethod E method params log
  = (Ok (member "result" fields),
     (log ++ [McpPost mcpProxyUrl (rpc_request E method params)])%list).
Proof.
  intros Hjson Hpost Hparse Herror.
  rewrite callMCPMethod_run, Hpost.
  rewrite (parse_sse_parsed E _ _ _ (VObj fields) (data_line_sse_frame json Hjson))
    by exact Hparse.
  cbn [get_prop obind]. rewrite Herror. reflexivity.
Qed.

Lemma callMCPMethod_frame_roundtrip_witness :
  fst (callMCPMethod (Samples.env_mcp_says Cases.result_frame) "tools/list" VUndefined [])
  = Ok (VObj [("tools", VArr [VObj [("name", VStr "getCompanies")]])]).
Proof.
  rewrite (callMCPMethod_frame_roundtrip (Samples.env_mcp_says Cases.result_frame)
             "tools/list" VUndefined []
             (JsonText.quoted "{'jsonrpc':'2.0','id':1,'result':{'tools':[{'name':'getCompanies'}]}}")
             [("jsonrpc", VStr "2.0"); ("id", VNum 1);
              ("result", VObj [("tools", VArr [VObj [("name", VStr "getCompanies")]])])]);
    vm_compute; reflexivity.
Defined.

(** X2.  Only the first data line counts: once a response text has a line
    starting with ["data: "], whatever follows on further lines does not
    change what the decoder returns. *)
Theorem parse_sse_first_data_line
    (E : Env) (label response line more : string) :
  data_line response = Some line ->
  parse_sse E label (response ++ nl ++ more) = parse_sse E label response.
Proof.
  intros Hline.
  assert (Hmore : data_line (response ++ nl ++ more) = Some line).
  { unfold data_line in *. rewrite split_lines_app.
    now apply find_app_some. }
  unfold parse_sse. unfold data_line in Hline, Hmore.
  rewrite Hline, Hmore. reflexivity.
Qed.

Lemma parse_sse_first_data_line_witness :
  data_line Cases.result_frame
  = Some (JsonText.quoted "data: {'jsonrpc':'2.0','id':1,'result':{'tools':[{'name':'getCompanies'}]}}") /\
  parse_sse Samples.env_mcp_down "MCP Error: "
    (Cases.result_frame ++ nl ++ Cases.error_frame)
  = parse_sse Samples.env_mcp_down "MCP Error: " Cases.result_frame.
Proof.
  assert (Hline : data_line Cases.result_frame
                  = Some (JsonText.quoted "data: {'jsonrpc':'2.0','id':1,'result':{'tools':[{'name':'getCompanies'}]}}"))
    by (vm_compute; reflexivity).
  split; [exact Hline |].
  exact (parse_sse_first_data_line Samples.env_mcp_down "MCP Error: "
           Cases.result_frame _ Cases.error_frame Hline).
Defined.

(** X3.  A data line whose text is not JSON makes [callMCPMethod] fail
    with the [SyntaxError] of [JSON.parse], after its one request. *)
Theorem callMCPMethod_malformed_json
    (E : Env) (method : string) (params : value) (log : Log)
    (response line : string) :
  mcp_post E (rpc_request E method params) = Ok response ->
  data_line response = Some line ->
  JSON_parse E (substring_from 6 line) = None ->
  callMCPMethod E method params log
  = (Throw SyntaxError,
     (log ++ [McpPost mcpProxyUrl (rpc_request E method params)])%list).
Proof.
  intros Hpost Hline Hparse. rewrite callMCPMethod_run, Hpost.
  unfold parse_sse. pose proof (data_line_nonempty _ _ Hline) as Hne.
  unfold data_line in Hline. rewrite Hline, Hne. cbn [negb].
  rewrite Hparse. reflexivity.
Qed.

Lemma callMCPMethod_malformed_json_witness :
  callMCPMethod (Samples.env_mcp_says Cases.broken_frame) "tools/list" VUndefined []
  = (Throw SyntaxError,
     [McpPost mcpProxyUrl
        (rpc_request (Samples.env_mcp_says Cases.broken_frame) "tools/list" VUndefined)]).
Proof.
  apply (callMCPMethod_malformed_json (Samples.env_mcp_says Cases.broken_frame)
           "tools/list" VUndefined [] Cases.broken_frame "data: {oops");
    vm_compute; reflexivity.
Defined.

(** ** Tool calls and the handshake *)

Lemma callMCPTool_run (E : Env) (toolName : string) (args : value) (log : Log) :
  callMCPTool E toolName args log
  = callMCPMethod E "tools/call"
      (VObj [("name", VStr toolName); ("arguments", or_else args (VObj []))]) log.
Proof.
  unfold callMCPTool, catchError, throwError.
  destruct (callMCPMethod E "tools/call" _ log) as [[result | e] log']; reflexivity.
Qed.

(** X4.  [callMCPTool] posts exactly one JSON-RPC envelope, whatever comes
    back: method ["tools/call"], the tool's name, and the given arguments
    or [{}] when they are omitted or falsy; and a transport failure of that
    request is the error of the call, unchanged. *)
Theorem callMCPTool_one_request (E : Env) (toolName : string) (args : value) (log : Log) :
  snd (callMCPTool E toolName args log)
  = (log ++ [McpPost "/api/mcp"
               {| jsonrpc := "2.0";
                  id := Date_now E;
                  method := "tools/call";
                  params := VObj [("name", VStr toolName);
                                  ("arguments", if truthy args then args else VObj [])] |}])%list /\
  (forall e,
      mcp_post E {| jsonrpc := "2.0";
                    id := Date_now E;
                    method := "tools/call";
                    params := VObj [("name", VStr toolName);
                                    ("arguments", if truthy args then args else VObj [])] |}
      = Throw e ->
      fst (callMCPTool E toolName args log) = Throw e).
Proof.
  rewrite callMCPTool_run, callMCPMethod_run.
  change (rpc_request E "tools/call"
            (VObj [("name", VStr toolName); ("arguments", or_else args (VObj []))]))
    with {| jsonrpc := "2.0";
            id := Date_now E;
            method := "tools/call";
            params := VObj [("name", VStr toolName);
                            ("arguments", if truthy args then args else VObj [])] |}.
  split; [reflexivity |].
  intros e Hpost. rewrite Hpost. reflexivity.
Qed.

Example getChats_request :
  snd (getChats Samples.env_mcp_down "Acme" [])
  = [McpPost "/api/mcp"
       {| jsonrpc := "2.0"; id := 1700000000000; method := "tools/call";
          params := VObj [("name", VStr "getChats");
                          ("arguments", VObj [("companyName", VStr "Acme")])] |}].
Proof. reflexivity. Qed.



(** ** [createContext] on arbitrary payloads *)

Lemma get_prop_only_TypeError (v : value) (k : string) :
  only_TypeError (get_prop v k).
Proof. destruct v; cbn; trivial. Qed.

Lemma obind_only_TypeError {A B : Type} (o : Outcome A) (k : A -> Outcome B) :
  only_TypeError o ->
  (forall a, only_TypeError (k a)) ->
  only_TypeError (obind o k).
Proof.
  destruct o as [a | e]; cbn; intros Ho Hk; [apply Hk | exact Ho].
Qed.

Lemma map_outcome_only_TypeError {A B : Type} (f : A -> Outcome B) (l : list A) :
  (forall a, only_TypeError (f a)) ->
  only_TypeError (map_outcome f l).
Proof.
  intros Hf. induction l as [| x rest IH]; cbn [map_outcome]; [exact I |].
  apply obind_only_TypeError; [apply Hf |]. intros y.
  apply obind_only_TypeError; [exact IH |]. intros ys. exact I.
Qed.

Lemma array_map_only_TypeError (v : value) (f : value -> Outcome value) :
  (forall a, only_TypeError (f a)) ->
  only_TypeError (array_map v f).
Proof.
  intros Hf. destruct v; cbn [array_map]; try reflexivity.
  now apply map_outcome_only_TypeError.
Qed.

Lemma render_company_only_TypeError (company : value) :
  only_TypeError (render_company company).
Proof.
  unfold render_company, chats_text, llms_text.
  repeat (first
    [ apply obind_only_TypeError; [| intros ? ]
    | apply get_prop_only_TypeError
    | apply array_map_only_TypeError; intros ?
    | match goal with
      | |- only_TypeError (if ?b then _ else _) => destruct b
      end
    | exact I ]).
Qed.

Lemma and_prop_total (v : value) (k : string) :
  exists x, and_prop v k = Ok x.
Proof.
  unfold and_prop. destruct (truthy v) eqn:Htruthy.
  - now apply truthy_get_prop.
  - eexists; reflexivity.
Qed.

Lemma normalize_total (E : Env) (payload : value) :
  exists normalized, normalize E payload = Ok normalized.
Proof.
  assert (Htail : exists normalized,
             match payload with
             | VArr items => Ok (Records items)
             | _ =>
                 let? nested := and_prop payload "companies" in
                 match nested with
                 | VArr items => Ok (Records items)
                 | _ =>
                     if truthy payload && typeof_object payload
                     then Ok (Records [payload])
                     else Ok (Records [])
                 end
             end = Ok normalized).
  { destruct (and_prop_total payload "companies") as [nested Hnested].
    destruct payload; try (eexists; reflexivity);
      rewrite Hnested; cbn [obind];
      destruct nested;
      match goal with
      | |- context [if ?b then _ else _] => destruct b
      | _ => idtac
      end; eexists; reflexivity. }
  unfold normalize.
  destruct (and_prop_total payload "content") as [contentField ->]. cbn [obind].
  destruct contentField as [| | b | n | s | contentItems | cfields];
    try exact Htail.
  destruct (and_prop_total (first_item contentItems) "text") as [text ->].
  cbn [obind]. destruct (truthy text); [eexists; reflexivity |].
  destruct (first_item contentItems); eexists; reflexivity.
Qed.

(** X6.  For every payload, the normalisation of [createContext] returns
    (it never throws: the [JSON.parse] of the inner text is inside the
    [try]), and [createContext] as a whole either returns a text or throws
    a [TypeError]; it never lets a [SyntaxError] out. *)
Theorem createContext_only_TypeError (E : Env) (payload : value) :
  (exists normalized, normalize E payload = Ok normalized) /\
  only_TypeError (createContext E payload).
Proof.
  split; [apply normalize_total |].
  unfold createContext.
  destruct (normalize_total E payload) as [normalized ->]. cbn [obind].
  destruct normalized as [companiesArray | text]; [| exact I].
  destruct (List.length companiesArray =? 0)%nat; [exact I |].
  apply obind_only_TypeError; [| intros blocks; exact I].
  apply map_outcome_only_TypeError. apply render_company_only_TypeError.
Qed.

Lemma render_company_nullish (company : value) :
  nullish company = true -> render_company company = Throw TypeError.
Proof.
  destruct company; cbn [nullish]; intros H; try discriminate; reflexivity.
Qed.

Lemma map_outcome_throws {A B : Type} (f : A -> Outcome B) (l : list A) (x : A) :
  (forall a, only_TypeError (f a)) ->
  In x l ->
  f x = Throw TypeError ->
  map_outcome f l = Throw TypeError.
Proof.
  intros Hf Hin Hx. induction l as [| y rest IH]; [contradiction |].
  cbn [map_outcome]. destruct Hin as [-> | Hin].
  - rewrite Hx. reflexivity.
  - pose proof (Hf y) as Hy. destruct (f y) as [b | e]; cbn [obind].
    + rewrite (IH Hin). reflexivity.
    + cbn in Hy. rewrite Hy. reflexivity.
Qed.

(** X7.  One [null] (or [undefined]) entry anywhere in a list payload
    makes [createContext] throw a [TypeError], whatever the other
    records are. *)
Theorem createContext_null_record (E : Env) (items : list value) (item : value) :
  In item items ->
  nullish item = true ->
  createContext E (VArr items) = Throw TypeError.
Proof.
  intros Hin Hnull. unfold createContext.
  change (normalize E (VArr items)) with (Ok (Records items)). cbn [obind].
  destruct items as [| first rest]; [contradiction |].
  cbn [List.length Nat.eqb].
  rewrite (map_outcome_throws render_company (first :: rest) item
             render_company_only_TypeError Hin
             (render_company_nullish item Hnull)).
  reflexivity.
Qed.

Lemma createContext_null_record_witness :
  createContext Samples.env_mcp_down (VArr [Samples.acme_record; VNull])
  = Throw TypeError.
Proof.
  apply (createContext_null_record Samples.env_mcp_down
           [Samples.acme_record; VNull] VNull).
  - right. left. reflexivity.
  - reflexivity.
Defined.

(** *** Well-formed company records *)

Lemma truthy_or_none (s : string) :
  to_string (or_else (VStr s) (VStr "None")) = none_if_empty s.
Proof. destruct s; reflexivity. Qed.

Lemma map_outcome_map {A B C : Type} (g : A -> B) (f : B -> Outcome C)
    (h : A -> C) (l : list A) :
  (forall a, f (g a) = Ok (h a)) ->
  map_outcome f (map g l) = Ok (map h l).
Proof.
  intros Hfg. induction l as [| x rest IH]; [reflexivity |].
  cbn [map map_outcome]. rewrite Hfg, IH. reflexivity.
Qed.

Lemma render_company_value (c : CompanyRecord) :
  render_company (company_value c) = Ok (company_block c).
Proof.
  assert (Hchats : chats_text (company_value c)
                   = Ok (none_if_empty (String.concat ", " (company_chats c)))).
  { unfold chats_text, company_value. cbn [get_prop obind].
    change (member "chats" _) with (VArr (map chat_value (company_chats c))).
    cbn [nullish array_map].
    rewrite (map_outcome_map chat_value _ (fun n => VStr n)) by reflexivity.
    cbn [obind]. rewrite (join_strings ", " (fun n : string => n)), map_id.
    rewrite truthy_or_none. reflexivity. }
  assert (Hllms : llms_text (company_value c)
                  = Ok (none_if_empty
                          (String.concat ", " (map llm_pair (company_llms c))))).
  { unfold llms_text, company_value. cbn [get_prop obind].
    change (member "llms" _) with (VArr (map llm_value (company_llms c))).
    cbn [nullish array_map].
    rewrite (map_outcome_map llm_value _ (fun l => VStr (llm_pair l)))
      by reflexivity.
    cbn [obind]. rewrite (join_strings ", " llm_pair).
    rewrite truthy_or_none. reflexivity. }
  unfold render_company. rewrite Hchats, Hllms. reflexivity.
Qed.

(** X8.  On a list of well-formed company records, given directly or under
    a top-level [companies] member, [createContext] returns
    ["No company data available."] for the empty list and otherwise one
    block per company, in order, separated by a blank line; in a block the
    chatbot names are joined by [", "], the models are written
    ["name (specialization)"] and joined by [", "], and an empty joined
    text reads ["None"]. *)
Theorem createContext_renders_records (E : Env) (companies : list CompanyRecord) :
  createContext E (VArr (map company_value companies))
  = Ok match companies with
       | [] => "No company data available."
       | _ :: _ => String.concat (nl ++ nl) (map company_block companies)
       end /\
  createContext E (VObj [("companies", VArr (map company_value companies))])
  = createContext E (VArr (map company_value companies)).
Proof.
  split; [| reflexivity].
  unfold createContext.
  change (normalize E (VArr (map company_value companies)))
    with (Ok (Records (map company_value companies))).
  cbn [obind]. destruct companies as [| c rest]; [reflexivity |].
  cbn [map List.length Nat.eqb].
  change (company_value c :: map company_value rest)
    with (map company_value (c :: rest)).
  rewrite (map_outcome_map company_value render_company company_block)
    by apply render_company_value.
  reflexivity.
Qed.

Example createContext_two_records :
  createContext Samples.env_mcp_down
    (VArr (map company_value [Cases.acme; Cases.bare]))
  = Ok ("Company: Acme" ++ nl ++ "Description: d" ++ nl ++
        "Chatbots: c1, c2" ++ nl ++ "LLM Models: m1 (s1)" ++ nl ++ nl ++
        "Company: Bare" ++ nl ++ "Description: none yet" ++ nl ++
        "Chatbots: None" ++ nl ++ "LLM Models: None").
Proof. vm_compute. reflexivity. Qed.

(** ** The rich tier and the order of requests *)

Lemma createContext_records (E : Env) (payload : value)
    (companies : list CompanyRecord) :
  normalize E payload = Ok (Records (map company_value companies)) ->
  createContext E payload
  = Ok match companies with
       | [] => "No company data available."
       | _ :: _ => String.concat (nl ++ nl) (map company_block companies)
       end.
Proof.
  intros Hnorm. unfold createContext. rewrite Hnorm. cbn [obind].
  destruct companies as [| c rest]; [reflexivity |].
  cbn [map List.length Nat.eqb].
  change (company_value c :: map company_value rest)
    with (map company_value (c :: rest)).
  rewrite (map_outcome_map company_value render_company company_block)
    by apply render_company_value.
  reflexivity.
Qed.

(** X9.  The rich tier from the wire to the conversation.  When the proxy
    answers the [getCompanies] call with the frame of a JSON text (no line
    feed in it) that [JSON.parse] reads as an object without truthy
    [error], whose [result] has a [content] list starting with an object
    whose [text] is a non-empty string, itself read by [JSON.parse] as a
    list of well-formed company records, then the conversation is one
    system message followed by the input's non-system messages, whatever
    tool list was supplied; the system message is the fixed introduction,
    the blocks of the companies separated by blank lines (or
    ["No company data available."] for no company), and the fixed
    instructions and tool names. *)
Theorem enhancedMessages_rich_records (E : Env) (msgs : list OpenAIMessage)
    (mcpTools : value) (log : Log) (json text : string)
    (fields rfields first : list (string * value)) (rest : list value)
    (companies : list CompanyRecord) :
  no_line_feed json = true ->
  mcp_post E (getCompanies_request E) = Ok (sse_frame json) ->
  JSON_parse E json = Some (VObj fields) ->
  truthy (member "error" fields) = false ->
  member "result" fields = VObj rfields ->
  lookup "content" rfields = Some (VArr (VObj first :: rest)) ->
  lookup "text" first = Some (VStr text) ->
  text <> EmptyString ->
  JSON_parse E text = Some (VArr (map company_value companies)) ->
  enhancedMessages E msgs mcpTools log
  = (Ok ({| role := system;
            content :=
              "You are an AI assistant that helps users find information about AI companies and their products." ++ nl ++
              nl ++
              "You have access to the following data about AI companies:" ++ nl ++
              match companies with
              | [] => "No company data available."
              | _ :: _ => String.concat (nl ++ nl) (map company_block companies)
              end ++ nl ++
              nl ++
              "When users ask questions, use this data to provide accurate and helpful responses. If the question is about a specific company, you can also suggest using the MCP tools to get more detailed information about their chatbots or LLM models." ++ nl ++
              nl ++
              "Available MCP tools:" ++ nl ++
              "- getCompanies: Get all companies with their chats and LLMs" ++ nl ++
              "- getChats(companyName): Get chatbots for a specific company" ++ nl ++
              "- getLLMs(companyName): Get LLM models for a specific company" ++ nl ++
              nl ++
              "Be helpful, accurate, and suggest relevant companies or products based on the user's question." |}
         :: without_system msgs),
     (log ++ [McpPost mcpProxyUrl (getCompanies_request E)])%list).
Proof.
  intros Hjson Hpost Hparse Herror Hresult Hcontent Htext Hnonempty Hinner.
  assert (Hcall : getCompanies E log
                  = (Ok (VObj rfields),
                     (log ++ [McpPost mcpProxyUrl (getCompanies_request E)])%list)).
  { rewrite getCompanies_run, Hpost.
    rewrite (parse_sse_parsed E _ _ _ (VObj fields) (data_line_sse_frame json Hjson))
      by exact Hparse.
    cbn [get_prop obind]. rewrite Herror, Hresult. reflexivity. }
  assert (Htruthy : truthy (VStr text) = true).
  { cbn [truthy]. destruct (String.eqb_spec text EmptyString);
      [contradiction | reflexivity]. }
  assert (Hnorm : normalize E (VObj rfields)
                  = Ok (Records (map company_value companies))).
  { rewrite (normalize_content_text E rfields first rest (VStr text)
               Hcontent Htext Htruthy).
    unfold records_of_text. cbn [to_string]. rewrite Hinner. reflexivity. }
  rewrite enhancedMessages_cases. unfold rich_tier, pipe_map, rich_messages.
  rewrite Hcall, (createContext_records E _ companies Hnorm). reflexivity.
Qed.

Lemma enhancedMessages_rich_records_witness :
  fst (enhancedMessages (Samples.env_mcp_says Cases.acme_frame)
         Samples.interleaved (mcpTools_of (Some Samples.some_tools)) [])
  = Ok ({| role := system; content := richPrompt Samples.acme_block |}
        :: without_system Samples.interleaved).
Proof.
  rewrite (enhancedMessages_rich_records (Samples.env_mcp_says Cases.acme_frame)
             Samples.interleaved (mcpTools_of (Some Samples.some_tools)) []
             (JsonText.quoted "{'jsonrpc':'2.0','id':1,'result':{'content':[{'type':'text','text':'[{\'company\':\'Acme\',\'description\':\'d\',\'chats\':[{\'chatbot\':\'c1\'}],\'llms\':[{\'llm\':\'m1\',\'specialization\':\'s1\'}]}]'}]}}")
             Samples.acme_text
             [("jsonrpc", VStr "2.0"); ("id", VNum 1);
              ("result",
               VObj [("content",
                      VArr [VObj [("type", VStr "text");
                                  ("text", VStr Samples.acme_text)]])])]
             [("content",
               VArr [VObj [("type", VStr "text"); ("text", VStr Samples.acme_text)]])]
             [("type", VStr "text"); ("text", VStr Samples.acme_text)] []
             [{| company_name := "Acme"; company_description := "d";
                 company_chats := ["c1"];
                 company_llms := [{| llm_name := "m1"; llm_specialization := "s1" |}] |}]);
    try (vm_compute; reflexivity).
  vm_compute. discriminate.
Defined.

(** X10.  A payload whose [content] text is not JSON does not make the
    rich tier fail: the conversation gets the rich system prompt with
    ["Error parsing company data."] in place of the company data, and the
    supplied tool list is not used. *)
Theorem enhancedMessages_unparsable_text (E : Env) (msgs : list OpenAIMessage)
    (mcpTools : value) (log log' : Log)
    (fields first : list (string * value)) (rest : list value) (text : value) :
  getCompanies E log = (Ok (VObj fields), log') ->
  lookup "content" fields = Some (VArr (VObj first :: rest)) ->
  lookup "text" first = Some text ->
  truthy text = true ->
  JSON_parse E (to_string text) = None ->
  enhancedMessages E msgs mcpTools log
  = (Ok ({| role := system; content := richPrompt "Error parsing company data." |}
         :: without_system msgs), log').
Proof.
  intros Hcall Hcontent Htext Htruthy Hparse.
  rewrite enhancedMessages_cases.
  unfold rich_tier, pipe_map, rich_messages. rewrite Hcall.
  unfold createContext.
  rewrite (normalize_content_text E fields first rest text Hcontent Htext Htruthy).
  unfold records_of_text. rewrite Hparse. reflexivity.
Qed.

Lemma enhancedMessages_unparsable_text_witness :
  fst (enhancedMessages (Samples.env_mcp_says Cases.garbled_frame)
         Cases.question (mcpTools_of (Some Samples.some_tools)) [])
  = Ok [{| role := system; content := richPrompt "Error parsing company data." |};
        {| role := user; content := "which companies?" |}].
Proof.
  rewrite (enhancedMessages_unparsable_text (Samples.env_mcp_says Cases.garbled_frame)
             Cases.question (mcpTools_of (Some Samples.some_tools)) []
             [McpPost mcpProxyUrl
                (getCompanies_request (Samples.env_mcp_says Cases.garbled_frame))]
             [("content", VArr [VObj [("type", VStr "text"); ("text", VStr "<html>")]])]
             [("type", VStr "text"); ("text", VStr "<html>")] []
             (VStr "<html>"));
    vm_compute; reflexivity.
Defined.

Lemma getCompanies_log (E : Env) (log : Log) :
  snd (getCompanies E log)
  = (log ++ [McpPost mcpProxyUrl (getCompanies_request E)])%list.
Proof. rewrite getCompanies_run. reflexivity. Qed.

Lemma enhancedMessages_log (E : Env) (msgs : list OpenAIMessage)
    (mcpTools : value) (log : Log) :
  snd (enhancedMessages E msgs mcpTools log)
  = (log ++ [McpPost mcpProxyUrl (getCompanies_request E)])%list.
Proof.
  rewrite enhancedMessages_cases. unfold rich_tier, pipe_map.
  pose proof (getCompanies_log E log) as Hlog.
  destruct (getCompanies E log) as [[payload | e] log1]; cbn [snd] in Hlog;
    subst log1.
  - destruct (rich_messages E msgs payload); reflexivity.
  - reflexivity.
Qed.

Lemma sendMessageWithMCPContext_log (E : Env) (msgs : list OpenAIMessage)
    (mcpTools : value) (log : Log) :
  snd (sendMessageWithMCPContext E msgs mcpTools log)
  = (log ++ McpPost mcpProxyUrl (getCompanies_request E)
       :: match fst (enhancedMessages E msgs mcpTools log) with
          | Ok out =>
              if String.eqb (getApiKey E) EmptyString then []
              else [completion_request E out]
          | Throw _ => []
          end)%list.
Proof.
  rewrite sendMessageWithMCPContext_run.
  pose proof (enhancedMessages_log E msgs mcpTools log) as Hlog.
  destruct (enhancedMessages E msgs mcpTools log) as [[out | e] log'];
    cbn [fst snd] in Hlog |- *; subst log'.
  - destruct (String.eqb_spec (getApiKey E) EmptyString) as [Hkey | Hkey].
    + rewrite (sendMessage_no_key E out _ Hkey). reflexivity.
    + rewrite (sendMessage_with_key E out _ Hkey). cbn [snd].
      rewrite <- app_assoc. reflexivity.
  - reflexivity.
Qed.

(** X11.  The requests of one [sendMessageWithMCPContext]: first exactly
    one POST to the MCP proxy (the [getCompanies] tool call), then at most
    one POST to the completion endpoint, and nothing else; the completion
    POST is there exactly when the composer produced a conversation and a
    credential is set. *)
Theorem sendMessageWithMCPContext_requests (E : Env) (msgs : list OpenAIMessage)
    (mcpTools : value) (log : Log) :
  snd (sendMessageWithMCPContext E msgs mcpTools log)
  = (log ++ McpPost mcpProxyUrl (getCompanies_request E)
       :: match fst (enhancedMessages E msgs mcpTools log) with
          | Ok out =>
              if String.eqb (getApiKey E) EmptyString then []
              else [completion_request E out]
          | Throw _ => []
          end)%list.
Proof. apply sendMessageWithMCPContext_log. Qed.



(** X13.  [processUserQuestion] without a credential fails with its own
    message and makes no request at all, not even the MCP call; with a
    credential the conversation it has completed is the question alone or
    the question behind one system message, and composing it never
    fails. *)
Theorem processUserQuestion_outcomes (E : Env) (question : string) (log : Log) :
  (getApiKey E = EmptyString ->
   processUserQuestion E question log
   = (Throw (Error "OpenAI API key not configured. Please set your API key in the configuration."),
      log)) /\
  (getApiKey E <> EmptyString ->
   exists out,
     (out = [{| role := user; content := question |}] \/
      exists prompt,
        out = [{| role := system; content := prompt |};
               {| role := user; content := question |}]) /\
     processUserQuestion E question log
     = sendMessage E out
         (log ++ [McpPost mcpProxyUrl (getCompanies_request E)])%list).
Proof.
  unfold processUserQuestion. split.
  - intros Hkey. rewrite Hkey. reflexivity.
  - intros Hkey.
    destruct (String.eqb_spec (getApiKey E) EmptyString) as [Heq | _];
      [contradiction |].
    rewrite sendMessageWithMCPContext_run.
    pose proof (enhancedMessages_shape E
                  [{| role := user; content := question |}] VUndefined log) as Hshape.
    pose proof (enhancedMessages_log E
                  [{| role := user; content := question |}] VUndefined log) as Hlog.
    destruct (enhancedMessages E [{| role := user; content := question |}]
                VUndefined log) as [[out | e] log'];
      cbn [snd] in Hlog; subst log'.
    + exists out. split; [| reflexivity].
      destruct Hshape as [[prompt ->] | [-> _]].
      * right. exists prompt. reflexivity.
      * left. reflexivity.
    + destruct Hshape as [Hhas _]. discriminate Hhas.
Qed.

(** X14.  With a credential, a transport failure of the completion request
    (an HTTP error status, a network error) is the error of [sendMessage],
    unchanged, after its one request. *)
Theorem sendMessage_transport_error (E : Env) (msgs : list OpenAIMessage)
    (log : Log) (e : JsError) :
  getApiKey E <> EmptyString ->
  completion_post E ("Bearer " ++ getApiKey E) (completion_body msgs) = Throw e ->
  sendMessage E msgs log = (Throw e, (log ++ [completion_request E msgs])%list).
Proof.
  intros Hkey Hpost. rewrite (sendMessage_with_key E msgs log Hkey), Hpost.
  reflexivity.
Qed.

Lemma sendMessage_transport_error_witness :
  sendMessage Cases.env_unauthorized Cases.question []
  = (Throw (HttpErrorResponse 401 "Unauthorized"),
     [completion_request Cases.env_unauthorized Cases.question]).
Proof.
  apply (sendMessage_transport_error Cases.env_unauthorized Cases.question []).
  - discriminate.
  - reflexivity.
Defined.

(** ** The health check *)

(** X16.  [checkMCPHealth] reports ["healthy"] exactly when the [status]
    member of the answer is the string ["ok"], and ["unhealthy"] for any
    other answer that is not [null]; it hands the answer back as [data];
    a transport failure is passed on unchanged and a [null] answer throws
    a [TypeError]. *)
Theorem checkMCPHealth_status (now_iso : string) :
  (forall response,
      nullish response = false ->
      exists st,
        get_prop response "status" = Ok st /\
        Health.checkMCPHealth (Ok response) now_iso
        = Ok {| Health.status := if Health.is_ok st then "healthy" else "unhealthy";
                Health.timestamp := now_iso;
                Health.data := response;
                Health.serverType := "real" |} /\
        (Health.is_ok st = true <-> st = VStr "ok")) /\
  (forall e, Health.checkMCPHealth (Throw e) now_iso = Throw e) /\
  Health.checkMCPHealth (Ok VNull) now_iso = Throw TypeError.
Proof.
  refine (conj _ (conj _ _)); [| reflexivity | reflexivity].
  intros response Hnn.
  destruct (not_nullish_get_prop response "status" Hnn) as [st Hst].
  exists st. split; [exact Hst |]. split.
  - unfold Health.checkMCPHealth. rewrite Hst. reflexivity.
  - destruct st as [| | b | n | s | items | fields]; cbn [Health.is_ok];
      try (split; discriminate).
    split.
    + intros Heq. apply String.eqb_eq in Heq. subst s. reflexivity.
    + intros Heq. injection Heq as ->. reflexivity.
Qed.

Example checkMCPHealth_degraded :
  Health.checkMCPHealth (Ok (VObj [("status", VStr "degraded")])) "2026-01-01T00:00:00.000Z"
  = Ok {| Health.status := "unhealthy";
          Health.timestamp := "2026-01-01T00:00:00.000Z";
          Health.data := VObj [("status", VStr "degraded")];
          Health.serverType := "real" |}.
Proof. reflexivity. Qed.

(** * The configuration service *)

Module ConfigFacts.

Import ConfigService.

Lemma saveConfig_memory (P : Platform) (s : Service) :
  _config (saveConfig P s) = _config s /\
  isApiKeyConfigured (saveConfig P s) = isApiKeyConfigured s.
Proof.
  unfold saveConfig.
  destruct (negb (isPlatformBrowser P)); [split; reflexivity |].
  destruct (setItem_throws P); split; reflexivity.
Qed.

Lemma truthy_or_else (a b : value) :
  truthy b = false -> truthy (or_else a b) = truthy a.
Proof.
  intros Hb. unfold or_else. destruct (truthy a) eqn:Ha; [exact Ha | exact Hb].
Qed.

Lemma consistent_defaults (item : option string) :
  consistent {| _config := default_config; isApiKeyConfigured := false;
                stored := item |}.
Proof. reflexivity. Qed.

Lemma loadConfig_consistent (P : Platform) (s : Service) :
  consistent s -> consistent (loadConfig P s).
Proof.
  intros Hs. unfold loadConfig.
  destruct (negb (isPlatformBrowser P)); [exact Hs |].
  destruct (stored s) as [text |]; [| exact Hs].
  destruct (String.eqb text EmptyString); [exact Hs |].
  destruct (parse_text P text) as [config |]; [| apply consistent_defaults].
  destruct (get_prop config "openaiApiKey") as [key | e]; cbn [obind];
    [| apply consistent_defaults].
  destruct (get_prop config "mcpServerUrl") as [url | e]; cbn [obind];
    [| apply consistent_defaults].
  unfold consistent. cbn [_config isApiKeyConfigured openaiApiKey].
  symmetry. apply truthy_or_else. reflexivity.
Qed.

Lemma saveConfig_consistent (P : Platform) (s : Service) :
  consistent s -> consistent (saveConfig P s).
Proof.
  unfold consistent. destruct (saveConfig_memory P s) as [-> ->]. trivial.
Qed.

Lemma step_consistent (P : Platform) (s s' : Service) :
  step P s s' -> consistent s -> consistent s'.
Proof.
  intros Hstep Hflag.
  destruct Hstep as [apiKey s | url s | config s | s].
  - apply saveConfig_consistent. reflexivity.
  - apply saveConfig_consistent. exact Hflag.
  - apply saveConfig_consistent. reflexivity.
  - unfold clearConfig.
    destruct (negb (isPlatformBrowser P)); [apply consistent_defaults |].
    destruct (removeItem_throws P); [exact Hflag | apply consistent_defaults].
Qed.

End ConfigFacts.

(** X17.  In every state a [ConfigService] can reach from its
    construction, through [setApiKey], [setMcpServerUrl], [updateConfig]
    (members absent, [undefined] or strings) and [clearConfig], whatever
    was in storage and whether or not the storage calls throw: the signal
    [isApiKeyConfigured] is exactly the truthiness of the API key held, so
    a valid configuration is always flagged as configured. *)
Theorem ConfigService_invariant (P : ConfigService.Platform)
    (s : ConfigService.Service) :
  ConfigService.reachable P s ->
  ConfigService.isApiKeyConfigured s = truthy (ConfigService.getApiKey s) /\
  (ConfigService.isConfigValid s = true ->
   ConfigService.isApiKeyConfigured s = true).
Proof.
  intros Hreach.
  assert (Hflag : ConfigService.consistent s).
  { induction Hreach as [item | s s' _ IH Hstep].
    - apply ConfigFacts.loadConfig_consistent, ConfigFacts.consistent_defaults.
    - exact (ConfigFacts.step_consistent P s s' Hstep IH). }
  split; [exact Hflag |].
  unfold ConfigService.isConfigValid. intros Hvalid.
  apply andb_true_iff in Hvalid. rewrite Hflag. exact (proj1 Hvalid).
Qed.

Lemma ConfigService_invariant_witness :
  ConfigService.isApiKeyConfigured ConfigCases.configured
  = truthy (ConfigService.getApiKey ConfigCases.configured).
Proof.
  refine (proj1 (ConfigService_invariant ConfigCases.browser
                   ConfigCases.configured _)).
  unfold ConfigCases.configured.
  eapply ConfigService.reachable_step;
    [| apply ConfigService.step_setApiKey].
  eapply ConfigService.reachable_step;
    [| apply ConfigService.step_setMcpServerUrl].
  apply ConfigService.reachable_create.
Defined.

(** X18.  Persistence round trip: in a browser whose [setItem] works, and
    provided [JSON.parse] reads back what [JSON.stringify] wrote for the
    configuration, a service constructed over the storage left by
    [updateConfig] with both members holds that API key, flags it as
    configured exactly when it is not empty, and holds that server URL,
    or the default URL when the saved one is empty. *)
Theorem ConfigService_reload (P : ConfigService.Platform)
    (s : ConfigService.Service) (key url : string) :
  ConfigService.isPlatformBrowser P = true ->
  ConfigService.setItem_throws P = false ->
  ConfigService.stringify P
    (ConfigService.config_value
       {| ConfigService.openaiApiKey := VStr key;
          ConfigService.mcpServerUrl := VStr url |}) <> EmptyString ->
  ConfigService.parse_text P
    (ConfigService.stringify P
       (ConfigService.config_value
          {| ConfigService.openaiApiKey := VStr key;
             ConfigService.mcpServerUrl := VStr url |}))
  = Some (ConfigService.config_value
            {| ConfigService.openaiApiKey := VStr key;
               ConfigService.mcpServerUrl := VStr url |}) ->
  let saved :=
    ConfigService.updateConfig P
      {| ConfigService.new_openaiApiKey := Some (Some key);
         ConfigService.new_mcpServerUrl := Some (Some url) |} s in
  let reloaded := ConfigService.create P (ConfigService.stored saved) in
  ConfigService.getApiKey reloaded = VStr key /\
  ConfigService.isApiKeyConfigured reloaded = negb (String.eqb key EmptyString) /\
  ConfigService.getMcpServerUrl reloaded
  = VStr (if String.eqb url EmptyString then ConfigService.DEFAULT_MCP_URL else url).
Proof.
  intros Hbrowser Hset Hnonempty Hparse saved reloaded.
  subst saved reloaded.
  unfold ConfigService.updateConfig, ConfigService.saveConfig,
    ConfigService.create, ConfigService.loadConfig.
  rewrite Hbrowser, Hset.
  cbn [negb ConfigService.stored ConfigService._config
         ConfigService.new_openaiApiKey ConfigService.new_mcpServerUrl
         ConfigService.member_value].
  destruct (String.eqb_spec
              (ConfigService.stringify P
                 (ConfigService.config_value
                    {| ConfigService.openaiApiKey := VStr key;
                       ConfigService.mcpServerUrl := VStr url |}))
              EmptyString) as [Hempty | _]; [contradiction |].
  rewrite Hparse.
  unfold ConfigService.config_value, ConfigService.getApiKey,
    ConfigService.getMcpServerUrl.
  cbn [get_prop obind ConfigService.openaiApiKey ConfigService.mcpServerUrl].
  change (member "openaiApiKey" _) with (VStr key).
  change (member "mcpServerUrl" _) with (VStr url).
  cbn [ConfigService._config ConfigService.isApiKeyConfigured
         ConfigService.openaiApiKey ConfigService.mcpServerUrl].
  unfold or_else. cbn [truthy].
  destruct (String.eqb key EmptyString) eqn:Hkey;
    destruct (String.eqb url EmptyString) eqn:Hurl; cbn [negb];
    repeat split;
    try (apply String.eqb_eq in Hkey; subst key; reflexivity).
Qed.

Lemma ConfigService_reload_witness :
  ConfigService.getApiKey
    (ConfigService.create ConfigCases.browser
       (ConfigService.stored
          (ConfigService.updateConfig ConfigCases.browser
             {| ConfigService.new_openaiApiKey := Some (Some "sk-test");
                ConfigService.new_mcpServerUrl := Some (Some "https://mcp.bmcom.ca") |}
             (ConfigService.create ConfigCases.browser None))))
  = VStr "sk-test".
Proof.
  apply (ConfigService_reload ConfigCases.browser
           (ConfigService.create ConfigCases.browser None)
           "sk-test" "https://mcp.bmcom.ca").
  - reflexivity.
  - reflexivity.
  - vm_compute. discriminate.
  - vm_compute. reflexivity.
Defined.

(** X19.  What a new service starts from: outside a browser the storage is
    not read and the defaults stand (empty key, URL
    [http://localhost:3100], not configured); in a browser an absent or
    empty item leaves the defaults, and an item that is not JSON, or is
    the JSON [null], resets to them. *)
Theorem ConfigService_create_defaults (P : ConfigService.Platform) :
  (forall item,
      ConfigService.isPlatformBrowser P = false ->
      ConfigService.create P item
      = {| ConfigService._config := ConfigService.default_config;
           ConfigService.isApiKeyConfigured := false;
           ConfigService.stored := item |}) /\
  (forall item,
      item = None \/ item = Some EmptyString ->
      ConfigService.create P item
      = {| ConfigService._config := ConfigService.default_config;
           ConfigService.isApiKeyConfigured := false;
           ConfigService.stored := item |}) /\
  (forall text,
      ConfigService.parse_text P text = None \/
      ConfigService.parse_text P text = Some VNull ->
      ConfigService.create P (Some text)
      = {| ConfigService._config := ConfigService.default_config;
           ConfigService.isApiKeyConfigured := false;
           ConfigService.stored := Some text |}).
Proof.
  unfold ConfigService.create, ConfigService.loadConfig.
  split; [| split].
  - intros item ->. reflexivity.
  - intros item [-> | ->]; destruct (ConfigService.isPlatformBrowser P);
      reflexivity.
  - intros text Hparse.
    destruct (ConfigService.isPlatformBrowser P); [| reflexivity].
    cbn [negb ConfigService.stored].
    destruct (String.eqb_spec text EmptyString) as [-> | _]; [reflexivity |].
    destruct Hparse as [-> | ->]; reflexivity.
Qed.

Example ConfigService_create_corrupt :
  ConfigService.create ConfigCases.browser (Some "{openaiApiKey")
  = {| ConfigService._config := ConfigService.default_config;
       ConfigService.isApiKeyConfigured := false;
       ConfigService.stored := Some "{openaiApiKey" |}.
Proof. vm_compute. reflexivity. Qed.

(** X20.  An empty server URL is treated differently by the two setters:
    [setMcpServerUrl] replaces it by the default URL, [updateConfig]
    stores it as it is, and the configuration is then not valid. *)
Theorem ConfigService_empty_url (P : ConfigService.Platform)
    (s : ConfigService.Service) (key : option (option string)) :
  ConfigService.getMcpServerUrl (ConfigService.setMcpServerUrl P EmptyString s)
  = VStr "http://localhost:3100" /\
  ConfigService.getMcpServerUrl
    (ConfigService.updateConfig P
       {| ConfigService.new_openaiApiKey := key;
          ConfigService.new_mcpServerUrl := Some (Some EmptyString) |} s)
  = VStr EmptyString /\
  ConfigService.isConfigValid
    (ConfigService.updateConfig P
       {| ConfigService.new_openaiApiKey := key;
          ConfigService.new_mcpServerUrl := Some (Some EmptyString) |} s)
  = false.
Proof.
  unfold ConfigService.getMcpServerUrl, ConfigService.isConfigValid,
    ConfigService.setMcpServerUrl, ConfigService.updateConfig.
  repeat rewrite (proj1 (ConfigFacts.saveConfig_memory P _)).
  cbn [ConfigService._config ConfigService.mcpServerUrl
         ConfigService.new_mcpServerUrl ConfigService.member_value truthy].
  split; [reflexivity |]. split; [reflexivity |].
  apply andb_false_r.
Qed.



(** X22.  [clearConfig] outside a browser returns the memory to the
    defaults and leaves the storage alone; in a browser whose
    [removeItem] works it removes the stored item and returns the memory
    to the defaults, so that a service constructed afterwards starts from
    the defaults; in a browser whose [removeItem] throws it changes
    nothing, neither memory nor storage. *)
Theorem ConfigService_clearConfig (P : ConfigService.Platform)
    (s : ConfigService.Service) :
  (ConfigService.isPlatformBrowser P = false ->
   ConfigService.clearConfig P s
   = {| ConfigService._config := ConfigService.default_config;
        ConfigService.isApiKeyConfigured := false;
        ConfigService.stored := ConfigService.stored s |}) /\
  (ConfigService.isPlatformBrowser P = true ->
   ConfigService.removeItem_throws P = false ->
   ConfigService.clearConfig P s
   = {| ConfigService._config := ConfigService.default_config;
        ConfigService.isApiKeyConfigured := false;
        ConfigService.stored := None |} /\
   ConfigService.create P (ConfigService.stored (ConfigService.clearConfig P s))
   = ConfigService.clearConfig P s) /\
  (ConfigService.isPlatformBrowser P = true ->
   ConfigService.removeItem_throws P = true ->
   ConfigService.clearConfig P s = s).
Proof.
  unfold ConfigService.clearConfig, ConfigService.create, ConfigService.loadConfig.
  refine (conj _ (conj _ _)).
  - intros ->. reflexivity.
  - intros -> ->. split; reflexivity.
  - intros -> ->. reflexivity.
Qed.

Example ConfigService_clearConfig_browser :
  ConfigService.clearConfig ConfigCases.browser ConfigCases.configured
  = {| ConfigService._config := ConfigService.default_config;
       ConfigService.isApiKeyConfigured := false;
       ConfigService.stored := None |}.
Proof. reflexivity. Qed.

(** X23.  Outside a browser no operation of the service touches the
    storage: after any mutation the stored item is what it was. *)
Theorem ConfigService_server_storage (P : ConfigService.Platform)
    (s s' : ConfigService.Service) :
  ConfigService.isPlatformBrowser P = false ->
  ConfigService.step P s s' ->
  ConfigService.stored s' = ConfigService.stored s.
Proof.
  intros Hserver Hstep.
  destruct Hstep as [apiKey s | url s | config s | s];
    unfold ConfigService.setApiKey, ConfigService.setMcpServerUrl,
      ConfigService.updateConfig, ConfigService.clearConfig,
      ConfigService.saveConfig;
    rewrite Hserver; reflexivity.
Qed.

Lemma ConfigService_server_storage_witness :
  ConfigService.stored
    (ConfigService.setApiKey ConfigCases.server "sk-test"
       (ConfigService.create ConfigCases.server (Some "{}")))
  = Some "{}".
Proof.
  apply (ConfigService_server_storage ConfigCases.server
           (ConfigService.create ConfigCases.server (Some "{}"))).
  - reflexivity.
  - apply ConfigService.step_setApiKey.
Defined.

(** * The chat component *)

Lemma getMCPTools_log (E : Env) (log : Log) :
  snd (getMCPTools E log)
  = (log ++ [McpPost mcpProxyUrl (getMCPTools_request E)])%list.
Proof. unfold getMCPTools. rewrite callMCPMethod_run. reflexivity. Qed.

Lemma sendMessage_log (E : Env) (msgs : list OpenAIMessage) (log : Log) :
  snd (sendMessage E msgs log)
  = (log ++ if String.eqb (getApiKey E) EmptyString then []
            else [completion_request E msgs])%list.
Proof.
  destruct (String.eqb_spec (getApiKey E) EmptyString) as [Hkey | Hkey].
  - rewrite (sendMessage_no_key E msgs log Hkey). cbn [snd].
    rewrite app_nil_r. reflexivity.
  - rewrite (sendMessage_with_key E msgs log Hkey). reflexivity.
Qed.

Lemma count_system_app (a b : list OpenAIMessage) :
  count_system (a ++ b)%list = (count_system a + count_system b)%nat.
Proof.
  unfold count_system. rewrite filter_app, length_app. reflexivity.
Qed.

Lemma subscribe_reply_history (E : Env) (run : Outcome string * Log) (st : App.State) :
  (exists response,
      fst run = Ok response /\
      App.conversationHistory (fst (App.subscribe_reply E run st))
      = (App.conversationHistory st ++ [{| role := assistant; content := response |}])%list /\
      App.messages (fst (App.subscribe_reply E run st))
      = (App.messages st ++
         [{| App.text := response; App.isUser := false;
             App.timestamp := Date_now E |}])%list) \/
  (exists error content,
      fst run = Throw error /\
      App.conversationHistory (fst (App.subscribe_reply E run st))
      = App.conversationHistory st /\
      App.messages (fst (App.subscribe_reply E run st))
      = (App.messages st ++
         [{| App.text := content; App.isUser := false;
             App.timestamp := Date_now E |}])%list).
Proof.
  destruct run as [[response | error] log'].
  - left. exists response. repeat split.
  - right. exists error. eexists. repeat split.
Qed.

Lemma subscribe_reply_log (E : Env) (run : Outcome string * Log) (st : App.State) :
  snd (App.subscribe_reply E run st) = snd run.
Proof. destruct run as [[response | error] log']; reflexivity. Qed.


Lemma no_system_only_first (msgs : list OpenAIMessage) :
  count_system msgs = 0%nat -> system_only_first msgs.
Proof.
  unfold system_only_first. destruct msgs as [| m rest]; [trivial |].
  intros Hcount. change (m :: rest) with ([m] ++ rest)%list in Hcount.
  rewrite count_system_app in Hcount.
  apply Nat.eq_add_0 in Hcount. exact (proj2 Hcount).
Qed.

(** The conversation a turn sends: the history with the new user message. *)
Lemma proceed_cases (E : Env) (st : App.State) (log : Log) :
  exists run status,
    App.proceedWithRegularAIResponse E st log
    = App.subscribe_reply E run (App.set_status status st) /\
    ((exists mcpTools,
         fst (getMCPTools E log) = Ok mcpTools /\ status = "Healthy" /\
         run = sendMessageWithMCPContext E (App.conversationHistory st) mcpTools
                 (log ++ [McpPost mcpProxyUrl (getMCPTools_request E)])%list) \/
     (exists e,
         fst (getMCPTools E log) = Throw e /\ status = "Unavailable" /\
         run = sendMessage E (App.conversationHistory st)
                 (log ++ [McpPost mcpProxyUrl (getMCPTools_request E)])%list)).
Proof.
  unfold App.proceedWithRegularAIResponse.
  pose proof (getMCPTools_log E log) as Hlog.
  destruct (getMCPTools E log) as [[mcpTools | e] log1]; cbn [snd] in Hlog;
    subst log1.
  - eexists. exists "Healthy". split; [reflexivity |].
    left. exists mcpTools. repeat split.
  - eexists. exists "Unavailable". split; [reflexivity |].
    right. exists e. repeat split.
Qed.

(** X24.  A turn of the chat keeps the history free of system messages,
    and every completion request it makes carries a conversation whose
    only system message, if any, is its first message: from a history of
    user and assistant messages and a log of such requests, [addAIResponse]
    leads to a history and a log of the same kind. *)
Theorem addAIResponse_well_formed (E : Env) (isApiKeyConfigured : bool)
    (userMessage : string) (st : App.State) (log : Log) :
  count_system (App.conversationHistory st) = 0%nat ->
  Forall well_formed_request log ->
  count_system
    (App.conversationHistory
       (fst (App.addAIResponse E isApiKeyConfigured userMessage st log))) = 0%nat /\
  Forall well_formed_request
    (snd (App.addAIResponse E isApiKeyConfigured userMessage st log)).
Proof.
  intros Hhistory Hlog. unfold App.addAIResponse.
  destruct isApiKeyConfigured; cbn [negb]; [| split; assumption].
  set (st1 := App.push_history {| role := user; content := userMessage |} st).
  assert (Hh1 : count_system (App.conversationHistory st1) = 0%nat).
  { subst st1. cbn [App.push_history App.conversationHistory].
    rewrite count_system_app, Hhistory. reflexivity. }
  destruct (proceed_cases E st1 log) as [run [status [-> Hrun]]].
  split.
  - destruct (subscribe_reply_history E run (App.set_status status st1))
      as [[response [_ [-> _]]] | [error [content [_ [-> _]]]]];
      cbn [App.set_status App.conversationHistory].
    + rewrite count_system_app, Hh1. reflexivity.
    + exact Hh1.
  - rewrite subscribe_reply_log.
    assert (Hlog1 : Forall well_formed_request
                      (log ++ [McpPost mcpProxyUrl (getMCPTools_request E)])%list).
    { apply Forall_app. split; [exact Hlog |]. repeat constructor. }
    destruct Hrun as [[mcpTools [_ [_ ->]]] | [e [_ [_ ->]]]].
    + rewrite sendMessageWithMCPContext_log.
      apply Forall_app. split; [exact Hlog1 |].
      constructor; [exact I |].
      pose proof (enhancedMessages_shape E (App.conversationHistory st1) mcpTools
                    (log ++ [McpPost mcpProxyUrl (getMCPTools_request E)])%list)
        as Hshape.
      destruct (enhancedMessages E (App.conversationHistory st1) mcpTools _)
        as [[out | e] log']; cbn [fst]; [| constructor].
      destruct (String.eqb (getApiKey E) EmptyString); constructor;
        [| constructor].
      unfold well_formed_request, completion_request, system_only_first.
      cbn [messages completion_body].
      destruct Hshape as [[prompt ->] | [-> _]].
      * cbn [tl]. rewrite (without_system_no_system _ Hh1). exact Hh1.
      * apply no_system_only_first. exact Hh1.
    + rewrite sendMessage_log.
      apply Forall_app. split; [exact Hlog1 |].
      destruct (String.eqb (getApiKey E) EmptyString); constructor;
        [| constructor].
      unfold well_formed_request, completion_request, system_only_first.
      cbn [messages completion_body].
      apply no_system_only_first. exact Hh1.
Qed.

Lemma addAIResponse_well_formed_witness :
  Forall well_formed_request
    (snd (App.addAIResponse (Samples.env_mcp_says Cases.result_frame) true
            "which companies?" AppCases.asked [])).
Proof.
  apply (addAIResponse_well_formed (Samples.env_mcp_says Cases.result_frame) true
           "which companies?" AppCases.asked []).
  - reflexivity.
  - constructor.
Defined.

(** X25.  What a turn leaves behind.  Without a configured key
    [addAIResponse] makes no request, leaves the history alone and shows
    one notice.  With one, the user message is added to the history and
    the turn is run; if it yields an answer, the answer is added to the
    history after the user message and shown; if it fails, the user
    message stays in the history without an answer and one error text is
    shown: the invalid-key text for HTTP 401, the rate-limit text for
    HTTP 429, the general apology for any other error. *)
Theorem addAIResponse_history (E : Env) (userMessage : string)
    (st : App.State) (log : Log) :
  (App.conversationHistory (fst (App.addAIResponse E false userMessage st log))
   = App.conversationHistory st /\
   snd (App.addAIResponse E false userMessage st log) = log /\
   App.messages (fst (App.addAIResponse E false userMessage st log))
   = (App.messages st ++
      [{| App.text := "Please configure your OpenAI API key first by clicking the settings button.";
          App.isUser := false;
          App.timestamp := Date_now E |}])%list) /\
  (forall response,
      App.turn_result E
        (App.conversationHistory st ++ [{| role := user; content := userMessage |}])
        log = Ok response ->
      App.conversationHistory (fst (App.addAIResponse E true userMessage st log))
      = (App.conversationHistory st ++
         [{| role := user; content := userMessage |};
          {| role := assistant; content := response |}])%list /\
      App.messages (fst (App.addAIResponse E true userMessage st log))
      = (App.messages st ++
         [{| App.text := response; App.isUser := false;
             App.timestamp := Date_now E |}])%list) /\
  (forall error,
      App.turn_result E
        (App.conversationHistory st ++ [{| role := user; content := userMessage |}])
        log = Throw error ->
      App.conversationHistory (fst (App.addAIResponse E true userMessage st log))
      = (App.conversationHistory st ++
         [{| role := user; content := userMessage |}])%list /\
      App.messages (fst (App.addAIResponse E true userMessage st log))
      = (App.messages st ++
         [{| App.text :=
               match error with
               | HttpErrorResponse status _ =>
                   if (status =? 401)%Z then
                     "Invalid API key. Please check your OpenAI API key configuration."
                   else if (status =? 429)%Z then
                     "Rate limit exceeded. Please try again in a moment."
                   else "Sorry, I encountered an error while processing your request."
               | _ => "Sorry, I encountered an error while processing your request."
               end;
             App.isUser := false;
             App.timestamp := Date_now E |}])%list).
Proof.
  refine (conj _ (conj _ _)).
  - refine (conj _ (conj _ _)); reflexivity.
  - intros response. unfold App.addAIResponse, App.turn_result,
      App.proceedWithRegularAIResponse. cbn [negb].
    cbn [App.push_history App.set_status App.conversationHistory].
    destruct (getMCPTools E log) as [[mcpTools | mcpError] log1].
    + destruct (sendMessageWithMCPContext E _ mcpTools log1) as [[r | e] log2];
        cbn [fst]; intros Hrun; [| discriminate].
      injection Hrun as ->. cbn [App.subscribe_reply fst].
      unfold App.handleAIResponse.
      cbn [App.reply App.push_history App.set_status App.conversationHistory
             App.messages].
      rewrite <- app_assoc. split; reflexivity.
    + destruct (sendMessage E _ log1) as [[r | e] log2];
        cbn [fst]; intros Hrun; [| discriminate].
      injection Hrun as ->. cbn [App.subscribe_reply fst].
      unfold App.handleAIResponse.
      cbn [App.reply App.push_history App.set_status App.conversationHistory
             App.messages].
      rewrite <- app_assoc. split; reflexivity.
  - intros error. unfold App.addAIResponse, App.turn_result,
      App.proceedWithRegularAIResponse. cbn [negb].
    cbn [App.push_history App.set_status App.conversationHistory].
    destruct (getMCPTools E log) as [[mcpTools | mcpError] log1].
    + destruct (sendMessageWithMCPContext E _ mcpTools log1) as [[r | e] log2];
        cbn [fst]; intros Hrun; [discriminate |].
      injection Hrun as ->. cbn [App.subscribe_reply fst].
      split; [reflexivity |].
      unfold App.handleAIError. cbn [App.reply App.messages].
      destruct error; reflexivity.
    + destruct (sendMessage E _ log1) as [[r | e] log2];
        cbn [fst]; intros Hrun; [discriminate |].
      injection Hrun as ->. cbn [App.subscribe_reply fst].
      split; [reflexivity |].
      unfold App.handleAIError. cbn [App.reply App.messages].
      destruct error; reflexivity.
Qed.

Example addAIResponse_unauthorized :
  App.messages
    (fst (App.addAIResponse Cases.env_unauthorized true "which companies?"
            AppCases.asked []))
  = [{| App.text := "Invalid API key. Please check your OpenAI API key configuration.";
        App.isUser := false;
        App.timestamp := 1700000000000 |}].
Proof. vm_compute. reflexivity. Qed.



(** X27.  The handshake of the component always settles: [checkMCPHealth]
    posts exactly the [initialize] envelope, shows exactly one message,
    leaves the history alone, and ends with the status ["Healthy"] when
    [initializeMCP] succeeded and ["Unavailable"] when it failed; the
    status is never left at ["Checking..."]. *)
Theorem App_checkMCPHealth_settles (E : Env) (mcpUrl : string)
    (st : App.State) (log : Log) :
  snd (App.checkMCPHealth E mcpUrl st log)
  = (log ++ [McpPost mcpProxyUrl initRequest])%list /\
  List.length (App.messages (fst (App.checkMCPHealth E mcpUrl st log)))
  = S (List.length (App.messages st)) /\
  App.conversationHistory (fst (App.checkMCPHealth E mcpUrl st log))
  = App.conversationHistory st /\
  App.mcpHealthStatus (fst (App.checkMCPHealth E mcpUrl st log))
  = match fst (initializeMCP E log) with
    | Ok _ => "Healthy"
    | Throw _ => "Unavailable"
    end.
Proof.
  unfold App.checkMCPHealth.
  assert (Hlog : snd (initializeMCP E log)
                 = (log ++ [McpPost mcpProxyUrl initRequest])%list)
    by (rewrite initializeMCP_run; reflexivity).
  destruct (initializeMCP E log) as [[response | error] log'];
    cbn [fst snd] in Hlog |- *; subst log';
    cbn [App.reply App.set_status App.messages App.conversationHistory
           App.mcpHealthStatus];
    rewrite length_app; cbn [List.length];
    rewrite Nat.add_1_r; repeat split.
Qed.

Example App_checkMCPHealth_503 :
  App.messages
    (fst (App.checkMCPHealth Samples.env_mcp_down "https://mcp.bmcom.ca"
            (App.fresh []) []))
  = [{| App.text := "❌ MCP Server initialization failed for https://mcp.bmcom.ca. Error: 503 Service Unavailable";
        App.isUser := false;
        App.timestamp := 1700000000000 |}].
Proof. vm_compute. reflexivity. Qed.
